(** * AI article outline generator: the content strategist and its schema

    A shallow embedding of [src/agents/content_strategist.py] and
    [src/models/content_models.py], and the properties of the pipeline
    context assembly -> generation -> validated parse -> fallback.

    Conventions of the embedding.
    - Python [str] is [string]; [str.title] and [str.lower] are modelled on
      ASCII letters, every other character is left as it is.
    - Python [int] is [Z], Python [float] is the binary64 [float] of the
      kernel (only the literals [0.9] and [0.3] occur, no arithmetic).
    - A decoded JSON document and the dict literals of the code are values of
      [pyval]; a dict is an association list in insertion order, read with
      [dict_get] (keys are distinct in every dict the code builds).
    - The upstream mappings that are only read with [.get] are finite maps
      ([gmap]) from key to a value of the type the data model gives it.
    - Exceptions are the [Raise] results of [result]; the inference service
      and the decoders of the libraries ([json.loads], the output parser's
      JSON extraction) are fields of a [World], so every theorem holds for
      whatever they answer. *)

From Stdlib Require Import ZArith String Ascii List.
From Stdlib Require Import Floats.PrimFloat.
From stdpp Require Import base option gmap strings list pretty.

Set Warnings "-inexact-float,-register-all".
Local Open Scope Z_scope.
Local Open Scope string_scope.
Local Open Scope list_scope.

(** ** Python values *)

Inductive pyval : Type :=
| PNone
| PBool (b : bool)
| PInt (z : Z)
| PFloat (f : float)
| PStr (s : string)
| PList (l : list pyval)
| PDict (d : list (string * pyval)).

Abbreviation pydict := (list (string * pyval)).

(** [d.get(k)] / [k in d] on a dict. *)
Fixpoint dict_get (k : string) (d : pydict) : option pyval :=
  match d with
  | [] => None
  | (k', v) :: d' => if String.eqb k k' then Some v else dict_get k d'
  end.

(** Truth value of an object, as [if outline:] tests it. *)
Definition py_bool (v : pyval) : bool :=
  match v with
  | PNone => false
  | PBool b => b
  | PInt z => negb (Z.eqb z 0)
  | PFloat f => negb (PrimFloat.eqb f 0%float)
  | PStr s => negb (String.eqb s "")
  | PList l => negb (Nat.eqb (length l) 0)
  | PDict d => negb (Nat.eqb (length d) 0)
  end.

(** A list, str or other sequence is true when it is not empty. *)
Definition nonempty {A} (l : list A) : bool :=
  match l with [] => false | _ :: _ => true end.

(** ** Strings *)

Definition is_upper (c : ascii) : bool :=
  let n := nat_of_ascii c in (Nat.leb 65 n && Nat.leb n 90)%bool.

Definition is_lower (c : ascii) : bool :=
  let n := nat_of_ascii c in (Nat.leb 97 n && Nat.leb n 122)%bool.

Definition to_upper (c : ascii) : ascii :=
  if is_lower c then ascii_of_nat (nat_of_ascii c - 32) else c.

Definition to_lower (c : ascii) : ascii :=
  if is_upper c then ascii_of_nat (nat_of_ascii c + 32) else c.

(** [s.lower()], for ASCII text: a character outside the ASCII letters is
    left as it is (Python also lowers the letters of other scripts). *)
Fixpoint str_lower (s : string) : string :=
  match s with
  | EmptyString => EmptyString
  | String c r => String (to_lower c) (str_lower r)
  end.

(** [s.title()], for ASCII text: the first letter of every run of letters in
    upper case, the other letters of the run in lower case. [cased] says
    whether the previous character was a letter. A character outside the
    ASCII letters counts as no letter (Python also cases the letters of other
    scripts). *)
Fixpoint title_from (cased : bool) (s : string) : string :=
  match s with
  | EmptyString => EmptyString
  | String c r =>
      if (is_upper c || is_lower c)%bool
      then String (if cased then to_lower c else to_upper c) (title_from true r)
      else String c (title_from false r)
  end.

Definition str_title (s : string) : string := title_from false s.

(** [sub in s] *)
Fixpoint str_contains (sub s : string) : bool :=
  if String.prefix sub s then true
  else match s with
       | EmptyString => false
       | String _ r => str_contains sub r
       end.

(** [sep.join(l)] *)
Definition str_join (sep : string) (l : list string) : string :=
  String.concat sep l.

(** ** Exceptions *)

(** Why pydantic rejects a field. *)
Inductive reason : Type :=
| missing
| wrong_type
| out_of_bounds
| not_a_member
| value_error (msg : string).

Inductive exn : Type :=
| ValidationError (field : string) (why : reason)
| ValueError (msg : string)
| TypeError
| OutputParserException
| AttributeError (attr : string)
| KeyError (key : string)
| IndexError
| TransportError
| OpenAIError.

Inductive result (A : Type) : Type :=
| Ok (a : A)
| Raise (e : exn).
Arguments Ok {A} a.
Arguments Raise {A} e.

Definition rbind {A B} (r : result A) (k : A -> result B) : result B :=
  match r with
  | Ok a => k a
  | Raise e => Raise e
  end.

Notation "'let*' x := c1 'in' c2" := (rbind c1 (fun x => c2))
  (at level 10, x name, c1 at level 100, c2 at level 200).

(** Validating every element of a list, left to right. *)
Fixpoint rmap {A B} (f : A -> result B) (l : list A) : result (list B) :=
  match l with
  | [] => Ok []
  | a :: l' => let* b := f a in let* bs := rmap f l' in Ok (b :: bs)
  end.

(** ** Schema layer ([src/models/content_models.py]) *)

Inductive ContentType : Type :=
| ULTIMATE_GUIDE | HOW_TO | COMPARISON | LISTICLE | REVIEW.

Definition ContentType_value (c : ContentType) : string :=
  match c with
  | ULTIMATE_GUIDE => "ultimate_guide"
  | HOW_TO => "how_to"
  | COMPARISON => "comparison"
  | LISTICLE => "listicle"
  | REVIEW => "review"
  end.

Definition ContentType_members : list ContentType :=
  [ULTIMATE_GUIDE; HOW_TO; COMPARISON; LISTICLE; REVIEW].

Inductive SearchIntent : Type :=
| INFORMATIONAL | COMMERCIAL | TRANSACTIONAL | NAVIGATIONAL.

Definition SearchIntent_value (i : SearchIntent) : string :=
  match i with
  | INFORMATIONAL => "informational"
  | COMMERCIAL => "commercial"
  | TRANSACTIONAL => "transactional"
  | NAVIGATIONAL => "navigational"
  end.

Definition SearchIntent_members : list SearchIntent :=
  [INFORMATIONAL; COMMERCIAL; TRANSACTIONAL; NAVIGATIONAL].

(** The member of an enumeration with the given value, [Enum(value)]. *)
Definition member_of {E} (value : E -> string) (members : list E) (s : string)
  : option E :=
  find (fun m => String.eqb (value m) s) members.

Module KeywordData.
Record t : Type := mk {
  primary : string;
  secondary : list string;
  lsi : list string;
  longtail : list string
}.
End KeywordData.

Module ContentGap.
Record t : Type := mk {
  topic : string;
  description : string;
  opportunity_score : Z
}.
End ContentGap.

Module OutlineSection.
Record t : Type := mk {
  section_id : string;
  section_title : string;
  short_description : string;
  target_keywords : list string;
  suggested_word_count : Z;
  subsections : list string;
  research_notes : list string
}.

(** The names of the fields of the model, in declaration order. *)
Definition fields : list string :=
  ["section_id"; "section_title"; "short_description"; "target_keywords";
   "suggested_word_count"; "subsections"; "research_notes"].
End OutlineSection.

Module FAQ.
Record t : Type := mk {
  question : string;
  answer_brief : string;
  target_keywords : list string
}.
End FAQ.

Module ContentBrief.
Record t : Type := mk {
  title : string;
  meta_description : string;
  content_type : ContentType;
  search_intent : SearchIntent;
  target_audience : string;
  total_word_count : Z;
  sections : list OutlineSection.t;
  faqs : list FAQ.t;
  content_gaps_addressed : list ContentGap.t;
  internal_link_opportunities : list string
}.

End ContentBrief.

(** *** Field checks

    A field is accepted when its value already has the declared type: the
    conversions of pydantic's lax mode (a numeric string, an integral float
    or a bool for an [int]) are not modelled, so the checks below accept a
    part of what pydantic accepts, with the same result on that part.
    Validation reports the first field that fails, in declaration order; keys
    that are not fields of the model are ignored. *)

Definition required (field : string) (d : pydict) : result pyval :=
  match dict_get field d with
  | Some v => Ok v
  | None => Raise (ValidationError field missing)
  end.

Definition optional {A} (field : string) (d : pydict) (dflt : A)
    (check : pyval -> result A) : result A :=
  match dict_get field d with
  | Some v => check v
  | None => Ok dflt
  end.

Definition as_str (field : string) (v : pyval) : result string :=
  match v with
  | PStr s => Ok s
  | _ => Raise (ValidationError field wrong_type)
  end.

Definition as_int (field : string) (v : pyval) : result Z :=
  match v with
  | PInt z => Ok z
  | _ => Raise (ValidationError field wrong_type)
  end.

Definition as_list (field : string) (v : pyval) : result (list pyval) :=
  match v with
  | PList l => Ok l
  | _ => Raise (ValidationError field wrong_type)
  end.

Definition as_dict (field : string) (v : pyval) : result pydict :=
  match v with
  | PDict d => Ok d
  | _ => Raise (ValidationError field wrong_type)
  end.

Definition as_str_list (field : string) (v : pyval) : result (list string) :=
  let* l := as_list field v in rmap (as_str field) l.

(** [Field(ge=lo, le=hi)] *)
Definition as_bounded_int (field : string) (lo hi : Z) (v : pyval) : result Z :=
  let* z := as_int field v in
  if (Z.leb lo z && Z.leb z hi)%bool then Ok z
  else Raise (ValidationError field out_of_bounds).

Definition as_member {E} (field : string) (value : E -> string)
    (members : list E) (v : pyval) : result E :=
  let* s := as_str field v in
  match member_of value members s with
  | Some m => Ok m
  | None => Raise (ValidationError field not_a_member)
  end.

Definition as_list_of {A} (field : string) (check : pyval -> result A)
    (v : pyval) : result (list A) :=
  let* l := as_list field v in rmap check l.

Definition ContentGap_validate (v : pyval) : result ContentGap.t :=
  let* d := as_dict "content_gaps_addressed" v in
  let* topic := (let* x := required "topic" d in as_str "topic" x) in
  let* description :=
    (let* x := required "description" d in as_str "description" x) in
  let* opportunity_score :=
    (let* x := required "opportunity_score" d in
     as_bounded_int "opportunity_score" 1 10 x) in
  Ok (ContentGap.mk topic description opportunity_score).

Definition OutlineSection_validate (v : pyval) : result OutlineSection.t :=
  let* d := as_dict "sections" v in
  let* section_id :=
    (let* x := required "section_id" d in as_str "section_id" x) in
  let* section_title :=
    (let* x := required "section_title" d in as_str "section_title" x) in
  let* short_description :=
    (let* x := required "short_description" d in
     as_str "short_description" x) in
  let* target_keywords :=
    (let* x := required "target_keywords" d in
     as_str_list "target_keywords" x) in
  let* suggested_word_count :=
    (let* x := required "suggested_word_count" d in
     as_bounded_int "suggested_word_count" 100 2000 x) in
  let* subsections :=
    optional "subsections" d [] (as_str_list "subsections") in
  let* research_notes :=
    optional "research_notes" d [] (as_str_list "research_notes") in
  Ok (OutlineSection.mk section_id section_title short_description
        target_keywords suggested_word_count subsections research_notes).

Definition FAQ_validate (v : pyval) : result FAQ.t :=
  let* d := as_dict "faqs" v in
  let* question := (let* x := required "question" d in as_str "question" x) in
  let* answer_brief :=
    (let* x := required "answer_brief" d in as_str "answer_brief" x) in
  let* target_keywords :=
    optional "target_keywords" d [] (as_str_list "target_keywords") in
  Ok (FAQ.mk question answer_brief target_keywords).

(** *** The validator of [title]

    The validator is declared with [field_validator] and the signature
    [(cls, v, values)]. Pydantic hands such a validator, as [values], a
    [ValidationInfo] object, whose [data] is the mapping of the fields
    validated before; the body treats [values] as that mapping itself. A
    [ValidationInfo] supports neither [in] nor a subscript, so the first
    test of the body raises [TypeError] on it. Called with a plain dict the
    body runs as written. *)

(** What the validator can be handed as [values]. *)
Inductive validator_values : Type :=
| Values_dict (d : pydict)
| Values_info (data : pydict).

(** [x[0]] *)
Definition py_first (x : pyval) : result pyval :=
  match x with
  | PList (y :: _) => Ok y
  | PStr (String c _) => Ok (PStr (String c EmptyString))
  | PList [] | PStr EmptyString => Raise IndexError
  | PDict _ => Raise (KeyError "0")
  | PNone | PBool _ | PInt _ | PFloat _ => Raise TypeError
  end.

(** [x.lower()] *)
Definition py_lower (x : pyval) : result string :=
  match x with
  | PStr s => Ok (str_lower s)
  | _ => Raise (AttributeError "lower")
  end.

Definition title_must_contain_primary_keyword (v : string)
    (values : validator_values) : result string :=
  match values with
  | Values_info _ => Raise TypeError
  | Values_dict values =>
      match dict_get "target_keywords" values with
      | Some target_keywords =>
          if py_bool target_keywords then
            let* first := py_first target_keywords in
            let* primary := py_lower first in
            if negb (str_contains primary (str_lower v))
            then Raise (ValueError
                          ("Title should contain primary keyword: "
                           +:+ primary))
            else Ok v
          else Ok v
      | None => Ok v
      end
  end.

(** A [ValueError] of a field validator becomes the validation error of its
    field; any other exception leaves the validation as it is. *)
Definition field_validator {A} (field : string) (r : result A) : result A :=
  match r with
  | Raise (ValueError msg) => Raise (ValidationError field (value_error msg))
  | _ => r
  end.

(** Construction of a [ContentBrief] from a decoded mapping. The validator
    of [title] runs once the title is a string; [title] is the first field,
    so the [ValidationInfo] it is handed holds no field yet. *)
Definition ContentBrief_validate (v : pyval) : result ContentBrief.t :=
  let* d := as_dict "ContentBrief" v in
  let* title := (let* x := required "title" d in as_str "title" x) in
  let* title :=
    field_validator "title"
      (title_must_contain_primary_keyword title (Values_info [])) in
  let* meta_description :=
    (let* x := required "meta_description" d in
     as_str "meta_description" x) in
  let* content_type :=
    (let* x := required "content_type" d in
     as_member "content_type" ContentType_value ContentType_members x) in
  let* search_intent :=
    (let* x := required "search_intent" d in
     as_member "search_intent" SearchIntent_value SearchIntent_members x) in
  let* target_audience :=
    (let* x := required "target_audience" d in as_str "target_audience" x) in
  let* total_word_count :=
    (let* x := required "total_word_count" d in
     as_int "total_word_count" x) in
  let* sections :=
    (let* x := required "sections" d in
     as_list_of "sections" OutlineSection_validate x) in
  let* faqs :=
    (let* x := required "faqs" d in as_list_of "faqs" FAQ_validate x) in
  let* content_gaps_addressed :=
    (let* x := required "content_gaps_addressed" d in
     as_list_of "content_gaps_addressed" ContentGap_validate x) in
  let* internal_link_opportunities :=
    optional "internal_link_opportunities" d []
      (as_str_list "internal_link_opportunities") in
  Ok (ContentBrief.mk title meta_description content_type search_intent
        target_audience total_word_count sections faqs content_gaps_addressed
        internal_link_opportunities).

(** *** [.dict()] *)

Definition of_str_list (l : list string) : pyval := PList (map PStr l).

Definition ContentGap_dict (g : ContentGap.t) : pyval :=
  PDict [("topic", PStr (ContentGap.topic g));
         ("description", PStr (ContentGap.description g));
         ("opportunity_score", PInt (ContentGap.opportunity_score g))].

Definition OutlineSection_dict (s : OutlineSection.t) : pyval :=
  PDict [("section_id", PStr (OutlineSection.section_id s));
         ("section_title", PStr (OutlineSection.section_title s));
         ("short_description", PStr (OutlineSection.short_description s));
         ("target_keywords", of_str_list (OutlineSection.target_keywords s));
         ("suggested_word_count", PInt (OutlineSection.suggested_word_count s));
         ("subsections", of_str_list (OutlineSection.subsections s));
         ("research_notes", of_str_list (OutlineSection.research_notes s))].

Definition FAQ_dict (q : FAQ.t) : pyval :=
  PDict [("question", PStr (FAQ.question q));
         ("answer_brief", PStr (FAQ.answer_brief q));
         ("target_keywords", of_str_list (FAQ.target_keywords q))].

Definition ContentBrief_dict (b : ContentBrief.t) : pyval :=
  PDict [("title", PStr (ContentBrief.title b));
         ("meta_description", PStr (ContentBrief.meta_description b));
         ("content_type",
           PStr (ContentType_value (ContentBrief.content_type b)));
         ("search_intent",
           PStr (SearchIntent_value (ContentBrief.search_intent b)));
         ("target_audience", PStr (ContentBrief.target_audience b));
         ("total_word_count", PInt (ContentBrief.total_word_count b));
         ("sections",
           PList (map OutlineSection_dict (ContentBrief.sections b)));
         ("faqs", PList (map FAQ_dict (ContentBrief.faqs b)));
         ("content_gaps_addressed",
           PList (map ContentGap_dict (ContentBrief.content_gaps_addressed b)));
         ("internal_link_opportunities",
           of_str_list (ContentBrief.internal_link_opportunities b))].

(** ** Inputs of the strategist *)

(** A value of the loosely typed strategy mapping. *)
Inductive scalar : Type :=
| SStr (s : string)
| SInt (z : Z).

(** [f"{x}"] *)
Definition format_scalar (x : scalar) : string :=
  match x with
  | SStr s => s
  | SInt z => pretty z
  end.

Definition scalar_value (x : scalar) : pyval :=
  match x with
  | SStr s => PStr s
  | SInt z => PInt z
  end.

(** The keyword set as a generic mapping: every key may be absent. *)
Module KeywordMap.
Record t : Type := mk {
  primary : option string;
  secondary : option (list string);
  lsi : option (list string);
  longtail : option (list string)
}.
End KeywordMap.

(** The two accepted shapes of [state['keywords']]. *)
Inductive KeywordSet : Type :=
| KwDict (d : KeywordMap.t)
| KwObj (k : KeywordData.t).

Module CompetitorAnalysis.
Record t : Type := mk { common_topics : option (list string) }.
End CompetitorAnalysis.

Module PeopleAlsoAsk.
Record t : Type := mk { question : option string }.
End PeopleAlsoAsk.

Module SerperResult.
Record t : Type := mk { people_also_ask : option (list PeopleAlsoAsk.t) }.
End SerperResult.

(** A content gap of the state: a mapping, read with [.get]. *)
Module GapMap.
Record t : Type := mk {
  topic : option string;
  description : option string;
  opportunity_score : option Z
}.
End GapMap.

(** Modelled from the spec: [OutlineState] of [src/models/state_models.py],
    which is not among the sources. The spec's PipelineState holds the
    upstream inputs and the output slots [outline], [errors] and
    [confidence_scores]; the strategist reads [keywords] with a subscript and
    the other inputs with [.get], so these may be absent. *)
Record OutlineState : Type := mkState {
  keywords : KeywordSet;
  content_strategy : option (gmap string scalar);
  competitor_analysis : option CompetitorAnalysis.t;
  serper_results : option (list SerperResult.t);
  content_gaps : option (list GapMap.t);
  outline : option pyval;
  errors : list string;
  confidence_scores : gmap string float
}.

(** [state['outline'] = v] *)
Definition set_outline (v : pyval) (state : OutlineState) : OutlineState :=
  {| keywords := keywords state;
     content_strategy := content_strategy state;
     competitor_analysis := competitor_analysis state;
     serper_results := serper_results state;
     content_gaps := content_gaps state;
     outline := Some v;
     errors := errors state;
     confidence_scores := confidence_scores state |}.

(** [state['errors'].append(msg)] *)
Definition append_error (msg : string) (state : OutlineState) : OutlineState :=
  {| keywords := keywords state;
     content_strategy := content_strategy state;
     competitor_analysis := competitor_analysis state;
     serper_results := serper_results state;
     content_gaps := content_gaps state;
     outline := outline state;
     errors := errors state ++ [msg];
     confidence_scores := confidence_scores state |}.

(** [state['confidence_scores'][stage] = x] *)
Definition set_confidence (stage : string) (x : float) (state : OutlineState)
  : OutlineState :=
  {| keywords := keywords state;
     content_strategy := content_strategy state;
     competitor_analysis := competitor_analysis state;
     serper_results := serper_results state;
     content_gaps := content_gaps state;
     outline := outline state;
     errors := errors state;
     confidence_scores := <[stage := x]> (confidence_scores state) |}.

(** ** Context builder *)

(** [f"LABEL: {sep.join(items)}"] appended to the parts when [cond] holds. *)
Definition append_if (cond : bool) (line : string) (parts : list string)
  : list string :=
  if cond then parts ++ [line] else parts.

Definition _build_strategy_context (keywords : KeywordSet)
    (content_strategy : gmap string scalar)
    (competitor_analysis : CompetitorAnalysis.t)
    (serper_results : list SerperResult.t)
    (content_gaps : list GapMap.t) : string :=
  let context_parts : list string := [] in
  let '(primary_keyword, secondary_keywords, lsi_keywords, longtail_keywords) :=
    match keywords with
    | KwDict d =>
        (default "" (KeywordMap.primary d),
         default [] (KeywordMap.secondary d),
         default [] (KeywordMap.lsi d),
         @None (list string))
    | KwObj k =>
        (KeywordData.primary k,
         KeywordData.secondary k,
         KeywordData.lsi k,
         @None (list string))
    end in
  let context_parts :=
    context_parts ++ ["PRIMARY KEYWORD: " +:+ primary_keyword] in
  let context_parts :=
    append_if (nonempty secondary_keywords)
      ("SECONDARY KEYWORDS: " +:+ str_join ", " secondary_keywords)
      context_parts in
  let context_parts :=
    append_if (nonempty lsi_keywords)
      ("LSI KEYWORDS: " +:+ str_join ", " lsi_keywords) context_parts in
  let context_parts :=
    match longtail_keywords with
    | Some longtail =>
        append_if (nonempty longtail)
          ("LONGTAIL KEYWORDS: " +:+ str_join ", " longtail) context_parts
    | None => context_parts
    end in
  let context_parts :=
    context_parts ++
      ["CONTENT TYPE: " +:+
         format_scalar (default (SStr "guide")
                          (content_strategy !! "content_type"))] in
  let context_parts :=
    context_parts ++
      ["SEARCH INTENT: " +:+
         format_scalar (default (SStr "informational")
                          (content_strategy !! "search_intent"))] in
  let context_parts :=
    context_parts ++
      ["TARGET WORD COUNT: " +:+
         format_scalar (default (SInt 2500)
                          (content_strategy !! "estimated_word_count"))] in
  let context_parts :=
    match CompetitorAnalysis.common_topics competitor_analysis with
    | Some common_topics =>
        append_if (nonempty common_topics)
          ("COMPETITOR TOPICS: " +:+ str_join ", " (take 10 common_topics))
          context_parts
    | None => context_parts
    end in
  let context_parts :=
    match serper_results with
    | first :: _ =>
        let paa_questions :=
          take 5 (map (fun paa => default "" (PeopleAlsoAsk.question paa))
                    (default [] (SerperResult.people_also_ask first))) in
        append_if (nonempty paa_questions)
          ("PEOPLE ALSO ASK: " +:+ str_join "; " paa_questions) context_parts
    | [] => context_parts
    end in
  let context_parts :=
    match content_gaps with
    | _ :: _ =>
        let gap_topics :=
          map (fun gap => default "" (GapMap.topic gap)) (take 3 content_gaps) in
        context_parts ++
          ["CONTENT GAPS TO ADDRESS: " +:+ str_join "; " gap_topics]
    | [] => context_parts
    end in
  str_join (String "010" EmptyString) context_parts.

(** ** The outside world *)

(** What a call of the chain gives: the text of the answer, or no answer at
    all (unreachable, timed out, any error of the client, after whatever
    retries the client makes by its own policy). *)
Inductive llm_reply : Type :=
| Unreachable
| Reply (text : string).

Record World : Type := mkWorld {
  (** answer to the [n]-th call of [chain.invoke] (from 0), given the
      context that fills the prompt *)
  llm_invoke : nat -> string -> llm_reply;
  (** the JSON decoding of the output parser; [None] when it raises *)
  parse_json_markdown : string -> option pyval;
  (** [json.loads]; [None] when it raises *)
  json_loads : string -> option pyval
}.

(** ** Computations that call the inference service

    The state threaded through a run is the log of the calls of
    [chain.invoke] made so far, each recorded by the context that filled its
    prompt. The log counts calls, not the HTTP round trips of the client,
    which retries inside a call by its default policy. *)

Definition M (A : Type) : Type := list string -> result A * list string.

Definition ret {A} (a : A) : M A := fun log => (Ok a, log).

Definition bind {A B} (m : M A) (k : A -> M B) : M B :=
  fun log =>
    match m log with
    | (Ok a, log') => k a log'
    | (Raise e, log') => (Raise e, log')
    end.

Definition lift {A} (r : result A) : M A := fun log => (r, log).

(** [try: body except Exception as e: handler] *)
Definition try_except {A} (body : M A) (handler : exn -> M A) : M A :=
  fun log =>
    match body log with
    | (Ok a, log') => (Ok a, log')
    | (Raise e, log') => handler e log'
    end.

Notation "'let!' x := c1 'in' c2" := (bind c1 (fun x => c2))
  (at level 10, x name, c1 at level 100, c2 at level 200).

(** The substring matched by [re.search(r'\{.*\}', s, re.DOTALL)]: from the
    first opening brace to the last closing brace after it. *)
Fixpoint upto_last_close (s : string) : option string :=
  match s with
  | EmptyString => None
  | String c r =>
      match upto_last_close r with
      | Some p => Some (String c p)
      | None => if Ascii.eqb c "}" then Some (String c EmptyString) else None
      end
  end.

Fixpoint re_search_braces (s : string) : option string :=
  match s with
  | EmptyString => None
  | String c r =>
      if Ascii.eqb c "{"
      then option_map (String c) (upto_last_close r)
      else re_search_braces r
  end.

(** What [generate_content_strategy] gets back from the generation: a
    validated [ContentBrief] object, or a plain value ([None] included). *)
Inductive outline_obj : Type :=
| OBrief (b : ContentBrief.t)
| OValue (v : pyval).

(** [if outline:] *)
Definition outline_bool (o : outline_obj) : bool :=
  match o with
  | OBrief _ => true
  | OValue v => py_bool v
  end.

(** [outline.dict() if hasattr(outline, 'dict') else outline] *)
Definition outline_stored (o : outline_obj) : pyval :=
  match o with
  | OBrief b => ContentBrief_dict b
  | OValue v => v
  end.

(** [keywords.primary] *)
Definition getattr_primary (keywords : KeywordSet) : result string :=
  match keywords with
  | KwObj k => Ok (KeywordData.primary k)
  | KwDict _ => Raise (AttributeError "primary")
  end.

Definition confidence_high : float := 0.9%float.
Definition confidence_low : float := 0.3%float.

(** The functions below are the strategist once its client is constructed:
    [W] is the world that client talks to. The construction itself, which
    can raise, is [ChatOpenAI] further down. *)
Section Strategist.
Context (W : World).

(** One call of [chain.invoke]. *)
Definition invoke (context : string) : M string :=
  fun log =>
    (match llm_invoke W (length log) context with
     | Reply text => Ok text
     | Unreachable => Raise TransportError
     end,
     log ++ [context]).

(** [parser.parse(text)] of [PydanticOutputParser(ContentBrief)]: a text
    that does not decode and a validation error become the parser's
    exception; any other exception of the validation passes as it is. *)
Definition parser_parse (text : string) : result ContentBrief.t :=
  match parse_json_markdown W text with
  | None => Raise OutputParserException
  | Some obj =>
      match ContentBrief_validate obj with
      | Raise (ValidationError _ _) => Raise OutputParserException
      | r => r
      end
  end.

Definition _parse_outline_manually (raw_content : string)
    (keywords : KeywordSet) (content_strategy : gmap string scalar)
  : result pyval :=
  let parsed : option pyval :=
    match re_search_braces raw_content with
    | Some json_str => json_loads W json_str
    | None => None
    end in
  match parsed with
  | Some parsed => Ok parsed
  | None =>
      let* primary := getattr_primary keywords in
      Ok (PDict
        [("title", PStr ("Complete Guide to " +:+ str_title primary));
         ("meta_description",
           PStr ("Discover everything about " +:+ primary +:+
                 ". Expert insights and recommendations."));
         ("content_type",
           scalar_value (default (SStr "ultimate_guide")
                           (content_strategy !! "content_type")));
         ("search_intent",
           scalar_value (default (SStr "informational")
                           (content_strategy !! "search_intent")));
         ("target_audience",
           scalar_value (default (SStr "general audience")
                           (content_strategy !! "target_audience")));
         ("total_word_count",
           scalar_value (default (SInt 2500)
                           (content_strategy !! "estimated_word_count")));
         ("sections",
           PList
             [PDict
                [("section_id", PStr "introduction");
                 ("section_title",
                   PStr ("What is " +:+ str_title primary +:+ "?"));
                 ("short_description", PStr "Introduction and overview");
                 ("target_keywords", PList [PStr primary]);
                 ("suggested_word_count", PInt 300);
                 ("subsections",
                   PList [PStr "Overview"; PStr "Key Benefits"]);
                 ("research_notes",
                   PList [PStr "Define the topic clearly"])]]);
         ("faqs", PList []);
         ("content_gaps_addressed", PList []);
         ("internal_link_opportunities", PList [])])
  end.

Definition _generate_outline_with_llm (context : string)
    (keywords : KeywordSet) (content_strategy : gmap string scalar)
  : M outline_obj :=
  try_except
    (let! text := invoke context in
     let! result := lift (parser_parse text) in
     ret (OBrief result))
    (fun e =>
       try_except
         (let! raw_result := invoke context in
          let! parsed :=
            lift (_parse_outline_manually raw_result keywords
                    content_strategy) in
          ret (OValue parsed))
         (fun fallback_error => ret (OValue PNone))).

Definition generate_content_strategy (state : OutlineState)
  : M OutlineState :=
  let keywords := keywords state in
  let content_strategy := default ∅ (content_strategy state) in
  let competitor_analysis :=
    default (CompetitorAnalysis.mk None) (competitor_analysis state) in
  let serper_results := default [] (serper_results state) in
  let content_gaps := default [] (content_gaps state) in
  let context :=
    _build_strategy_context keywords content_strategy competitor_analysis
      serper_results content_gaps in
  let! outline :=
    _generate_outline_with_llm context keywords content_strategy in
  if outline_bool outline then
    ret (set_confidence "content_strategy" confidence_high
           (set_outline (outline_stored outline) state))
  else
    ret (set_confidence "content_strategy" confidence_low
           (append_error "Failed to generate content outline" state)).
End Strategist.

(** ** The inference client

    [_generate_outline_with_llm] constructs its client outside the [try],
    before any call of the chain: the construction gives the world the client
    talks to, or raises (no API key). [_generate_outline_with_llm W] and
    [generate_content_strategy W] above are the two functions once the client
    [W] is there; the two below include the construction. *)

Inductive Environment : Type :=
| NoClient
| Client (W : World).

(** [ChatOpenAI(model="gpt-4o-mini", temperature=0.2)] *)
Definition ChatOpenAI (env : Environment) : result World :=
  match env with
  | Client W => Ok W
  | NoClient => Raise OpenAIError
  end.

Definition _generate_outline_with_llm_from (env : Environment)
    (context : string) (keywords : KeywordSet)
    (content_strategy : gmap string scalar) : M outline_obj :=
  fun log =>
    match ChatOpenAI env with
    | Ok llm =>
        _generate_outline_with_llm llm context keywords content_strategy log
    | Raise e => (Raise e, log)
    end.

Definition generate_content_strategy_from (env : Environment)
    (state : OutlineState) : M OutlineState :=
  let context :=
    _build_strategy_context (keywords state)
      (default ∅ (content_strategy state))
      (default (CompetitorAnalysis.mk None) (competitor_analysis state))
      (default [] (serper_results state))
      (default [] (content_gaps state)) in
  let! outline :=
    _generate_outline_with_llm_from env context (keywords state)
      (default ∅ (content_strategy state)) in
  if outline_bool outline then
    ret (set_confidence "content_strategy" confidence_high
           (set_outline (outline_stored outline) state))
  else
    ret (set_confidence "content_strategy" confidence_low
           (append_error "Failed to generate content outline" state)).

(** ** What the properties are stated with *)

(** The bounds the schema declares. *)
Definition OutlineSection_ok (s : OutlineSection.t) : Prop :=
  100 <= OutlineSection.suggested_word_count s <= 2000.

Definition ContentGap_ok (g : ContentGap.t) : Prop :=
  1 <= ContentGap.opportunity_score g <= 10.

(** [v.get(k)] on a value that is a dict. *)
Definition py_get (k : string) (v : pyval) : option pyval :=
  match v with
  | PDict d => dict_get k d
  | _ => None
  end.

(** The invariants of a brief as the specification words them: its sections
    are not empty, the suggested word count of each lies in [100,2000], and
    its content type and search intent are members of their enumerations. *)
Definition section_in_bounds (s : pyval) : Prop :=
  exists z, py_get "suggested_word_count" s = Some (PInt z) /\
            100 <= z <= 2000.

Definition spec_invariants (v : pyval) : Prop :=
  exists sections c i,
    py_get "sections" v = Some (PList sections) /\
    sections <> [] /\
    Forall section_in_bounds sections /\
    py_get "content_type" v = Some (PStr (ContentType_value c)) /\
    py_get "search_intent" v = Some (PStr (SearchIntent_value i)).

(** The first tier of a run whose log is [log]: the constrained request and
    the schema-constrained parse of its answer. *)
Definition first_tier (W : World) (context : string) (log : list string)
  : result ContentBrief.t :=
  match llm_invoke W (length log) context with
  | Reply text => parser_parse W text
  | Unreachable => Raise TransportError
  end.

(** What the fallback returns after a failed first tier: the second request
    and the manual parse of its answer, [None] when either raises. *)
Definition fallback (W : World) (context : string) (keywords : KeywordSet)
    (content_strategy : gmap string scalar) (log : list string) : pyval :=
  match llm_invoke W (S (length log)) context with
  | Reply raw =>
      match _parse_outline_manually W raw keywords content_strategy with
      | Ok parsed => parsed
      | Raise _ => PNone
      end
  | Unreachable => PNone
  end.

(** The context a run builds from its state. *)
Definition context_of (state : OutlineState) : string :=
  _build_strategy_context (keywords state)
    (default ∅ (content_strategy state))
    (default (CompetitorAnalysis.mk None) (competitor_analysis state))
    (default [] (serper_results state))
    (default [] (content_gaps state)).

(** The minimal brief of the code, for a primary keyword and a strategy. *)
Definition minimal_brief (primary : string)
    (content_strategy : gmap string scalar) : pyval :=
  PDict
    [("title", PStr ("Complete Guide to " +:+ str_title primary));
     ("meta_description",
       PStr ("Discover everything about " +:+ primary +:+
             ". Expert insights and recommendations."));
     ("content_type",
       scalar_value (default (SStr "ultimate_guide")
                       (content_strategy !! "content_type")));
     ("search_intent",
       scalar_value (default (SStr "informational")
                       (content_strategy !! "search_intent")));
     ("target_audience",
       scalar_value (default (SStr "general audience")
                       (content_strategy !! "target_audience")));
     ("total_word_count",
       scalar_value (default (SInt 2500)
                       (content_strategy !! "estimated_word_count")));
     ("sections",
       PList
         [PDict
            [("section_id", PStr "introduction");
             ("section_title",
               PStr ("What is " +:+ str_title primary +:+ "?"));
             ("short_description", PStr "Introduction and overview");
             ("target_keywords", PList [PStr primary]);
             ("suggested_word_count", PInt 300);
             ("subsections", PList [PStr "Overview"; PStr "Key Benefits"]);
             ("research_notes", PList [PStr "Define the topic clearly"])]]);
     ("faqs", PList []);
     ("content_gaps_addressed", PList []);
     ("internal_link_opportunities", PList [])].

(** The minimal synthetic brief as the specification words it: the same,
    with the content type defaulting to ["guide"]. *)
Definition spec_minimal_brief (primary : string)
    (content_strategy : gmap string scalar) : pyval :=
  PDict
    [("title", PStr ("Complete Guide to " +:+ str_title primary));
     ("meta_description",
       PStr ("Discover everything about " +:+ primary +:+
             ". Expert insights and recommendations."));
     ("content_type",
       scalar_value (default (SStr "guide")
                       (content_strategy !! "content_type")));
     ("search_intent",
       scalar_value (default (SStr "informational")
                       (content_strategy !! "search_intent")));
     ("target_audience",
       scalar_value (default (SStr "general audience")
                       (content_strategy !! "target_audience")));
     ("total_word_count",
       scalar_value (default (SInt 2500)
                       (content_strategy !! "estimated_word_count")));
     ("sections",
       PList
         [PDict
            [("section_id", PStr "introduction");
             ("section_title",
               PStr ("What is " +:+ str_title primary +:+ "?"));
             ("short_description", PStr "Introduction and overview");
             ("target_keywords", PList [PStr primary]);
             ("suggested_word_count", PInt 300);
             ("subsections", PList [PStr "Overview"; PStr "Key Benefits"]);
             ("research_notes", PList [PStr "Define the topic clearly"])]]);
     ("faqs", PList []);
     ("content_gaps_addressed", PList []);
     ("internal_link_opportunities", PList [])].

(** The line separator of the context. *)
Definition nl : string := String "010" EmptyString.

(** The lines of the context, part by part, for keywords already read out of
    either shape. *)
Definition line_if (cond : bool) (line : string) : list string :=
  if cond then [line] else [].

Definition context_lines (primary_keyword : string)
    (secondary_keywords lsi_keywords : list string)
    (content_strategy : gmap string scalar)
    (competitor_analysis : CompetitorAnalysis.t)
    (serper_results : list SerperResult.t)
    (content_gaps : list GapMap.t) : list string :=
  ["PRIMARY KEYWORD: " +:+ primary_keyword]
  ++ line_if (nonempty secondary_keywords)
       ("SECONDARY KEYWORDS: " +:+ str_join ", " secondary_keywords)
  ++ line_if (nonempty lsi_keywords)
       ("LSI KEYWORDS: " +:+ str_join ", " lsi_keywords)
  ++ ["CONTENT TYPE: " +:+
        format_scalar (default (SStr "guide")
                         (content_strategy !! "content_type"));
      "SEARCH INTENT: " +:+
        format_scalar (default (SStr "informational")
                         (content_strategy !! "search_intent"));
      "TARGET WORD COUNT: " +:+
        format_scalar (default (SInt 2500)
                         (content_strategy !! "estimated_word_count"))]
  ++ line_if (nonempty (default []
                (CompetitorAnalysis.common_topics competitor_analysis)))
       ("COMPETITOR TOPICS: " +:+
          str_join ", "
            (take 10 (default []
               (CompetitorAnalysis.common_topics competitor_analysis))))
  ++ line_if
       (nonempty
          (take 5 (map (fun paa => default "" (PeopleAlsoAsk.question paa))
             (default []
                (SerperResult.people_also_ask
                   (default (SerperResult.mk None)
                      (head serper_results)))))))
       ("PEOPLE ALSO ASK: " +:+
          str_join "; "
            (take 5 (map (fun paa => default "" (PeopleAlsoAsk.question paa))
               (default []
                  (SerperResult.people_also_ask
                     (default (SerperResult.mk None)
                        (head serper_results)))))))
  ++ line_if (nonempty content_gaps)
       ("CONTENT GAPS TO ADDRESS: " +:+
          str_join "; "
            (map (fun gap => default "" (GapMap.topic gap))
               (take 3 content_gaps))).

(** The keywords as the builder reads them out of either shape. *)
Definition primary_of (keywords : KeywordSet) : string :=
  match keywords with
  | KwDict d => default "" (KeywordMap.primary d)
  | KwObj k => KeywordData.primary k
  end.

Definition secondary_of (keywords : KeywordSet) : list string :=
  match keywords with
  | KwDict d => default [] (KeywordMap.secondary d)
  | KwObj k => KeywordData.secondary k
  end.

Definition lsi_of (keywords : KeywordSet) : list string :=
  match keywords with
  | KwDict d => default [] (KeywordMap.lsi d)
  | KwObj k => KeywordData.lsi k
  end.

(** The longtail keywords a keyword set carries. *)
Definition longtail_of (keywords : KeywordSet) : list string :=
  match keywords with
  | KwDict d => default [] (KeywordMap.longtail d)
  | KwObj k => KeywordData.longtail k
  end.

(** The same keyword set with other longtail keywords. *)
Definition with_longtail (longtail : list string) (keywords : KeywordSet)
  : KeywordSet :=
  match keywords with
  | KwDict d =>
      KwDict (KeywordMap.mk (KeywordMap.primary d) (KeywordMap.secondary d)
                (KeywordMap.lsi d) (Some longtail))
  | KwObj k =>
      KwObj (KeywordData.mk (KeywordData.primary k) (KeywordData.secondary k)
               (KeywordData.lsi k) longtail)
  end.

(** A strategy whose content type and search intent, where present, are
    values of their enumerations. *)
Definition strategy_enumerated (content_strategy : gmap string scalar)
  : Prop :=
  (forall x, content_strategy !! "content_type" = Some x ->
     exists c, x = SStr (ContentType_value c)) /\
  (forall x, content_strategy !! "search_intent" = Some x ->
     exists i, x = SStr (SearchIntent_value i)).

(** ** Sample inputs and worlds *)

Definition sourdough : KeywordSet :=
  KwObj (KeywordData.mk "sourdough bread" [] [] []).

Definition sourdough_mapping : KeywordSet :=
  KwDict (KeywordMap.mk (Some "sourdough bread") None None None).

Definition sourdough_longtail : KeywordSet :=
  KwObj (KeywordData.mk "sourdough bread" [] []
           ["sourdough bread for beginners"; "feeding a sourdough starter"]).

(** A mapping without the key [primary]. *)
Definition no_primary : KeywordSet :=
  KwDict (KeywordMap.mk None None None None).

Definition no_analysis : CompetitorAnalysis.t := CompetitorAnalysis.mk None.

(** A state at the start of the strategist's stage: only the keywords and,
    possibly, a strategy are there. *)
Definition fresh_state (keywords : KeywordSet)
    (content_strategy : option (gmap string scalar)) : OutlineState :=
  mkState keywords content_strategy None None None None [] ∅.


Definition sourdough_context : string :=
  str_join nl
    ["PRIMARY KEYWORD: sourdough bread";
     "CONTENT TYPE: guide";
     "SEARCH INTENT: informational";
     "TARGET WORD COUNT: 2500"].

(** A brief the service may answer with, as a decoded JSON document. *)
Definition sample_document : pyval :=
  PDict
    [("title", PStr "Sourdough Bread at Home");
     ("meta_description", PStr "Bake sourdough bread at home.");
     ("content_type", PStr "how_to");
     ("search_intent", PStr "informational");
     ("target_audience", PStr "home bakers");
     ("total_word_count", PInt 1200);
     ("sections",
       PList
         [PDict
            [("section_id", PStr "starter");
             ("section_title", PStr "Feeding a Sourdough Starter");
             ("short_description", PStr "Keeping a starter alive");
             ("target_keywords", PList [PStr "sourdough starter"]);
             ("suggested_word_count", PInt 400)]]);
     ("faqs", PList []);
     ("content_gaps_addressed", PList [])].

(** The JSON text of [sample_document]. *)
Definition dq : string := String "034" EmptyString.
Definition quoted (s : string) : string := dq +:+ s +:+ dq.
Definition member (key value : string) : string := quoted key +:+ ": " +:+ value.

Definition sample_text : string :=
  "{" +:+
  str_join ", "
    [member "title" (quoted "Sourdough Bread at Home");
     member "meta_description" (quoted "Bake sourdough bread at home.");
     member "content_type" (quoted "how_to");
     member "search_intent" (quoted "informational");
     member "target_audience" (quoted "home bakers");
     member "total_word_count" "1200";
     member "sections"
       ("[{" +:+
        str_join ", "
          [member "section_id" (quoted "starter");
           member "section_title" (quoted "Feeding a Sourdough Starter");
           member "short_description" (quoted "Keeping a starter alive");
           member "target_keywords" ("[" +:+ quoted "sourdough starter" +:+ "]");
           member "suggested_word_count" "400"] +:+
        "}]");
     member "faqs" "[]";
     member "content_gaps_addressed" "[]"] +:+
  "}".

(** A JSON object that is not a brief, and its text. *)
Definition untyped_document : pyval := PDict [("outline", PList [])].
Definition untyped_text : string := "{" +:+ member "outline" "[]" +:+ "}".

Definition prose_text : string := "Sorry, I cannot write an outline for this.".

(** A decoder that knows the documents of the samples: [sample_text],
    [untyped_text] and the empty object; it rejects every other text, as the
    decoders of the libraries reject [prose_text]. *)
Definition sample_decoder (text : string) : option pyval :=
  if String.eqb text sample_text then Some sample_document
  else if String.eqb text untyped_text then Some untyped_document
  else if String.eqb text "{}" then Some (PDict [])
  else None.

(** The service cannot be reached. *)
Definition silent_world : World :=
  mkWorld (fun _ _ => Unreachable) sample_decoder sample_decoder.

(** The service answers every request in prose. *)
Definition prose_world : World :=
  mkWorld (fun _ _ => Reply prose_text) sample_decoder sample_decoder.

(** The service answers every request with the sample brief. *)
Definition brief_world : World :=
  mkWorld (fun _ _ => Reply sample_text) sample_decoder sample_decoder.


(** The service answers in prose first, then with an empty JSON object. *)
Definition empty_object_world : World :=
  mkWorld (fun n _ => match n with O => Reply prose_text | _ => Reply "{}" end)
    sample_decoder sample_decoder.

(** ** Further definitions for the properties of the code *)

(** Construction of a [KeywordData] from a mapping: [primary] is required,
    the three lists default to the empty list. *)
Definition KeywordData_of_mapping (d : KeywordMap.t) : result KeywordData.t :=
  match KeywordMap.primary d with
  | None => Raise (ValidationError "primary" missing)
  | Some primary =>
      Ok (KeywordData.mk primary
            (default [] (KeywordMap.secondary d))
            (default [] (KeywordMap.lsi d))
            (default [] (KeywordMap.longtail d)))
  end.

(** The part of the competitor analysis, of the search results and of the
    content gaps that the context builder reads. *)
Definition read_topics (competitor_analysis : CompetitorAnalysis.t)
  : CompetitorAnalysis.t :=
  CompetitorAnalysis.mk
    (option_map (take 10)
       (CompetitorAnalysis.common_topics competitor_analysis)).

Definition read_results (serper_results : list SerperResult.t)
  : list SerperResult.t :=
  match serper_results with
  | [] => []
  | first :: _ =>
      [SerperResult.mk
         (option_map (take 5) (SerperResult.people_also_ask first))]
  end.

Definition read_gaps (content_gaps : list GapMap.t) : list GapMap.t :=
  map (fun gap => GapMap.mk (GapMap.topic gap) None None)
    (take 3 content_gaps).

(** [c in s], for a character. *)
Fixpoint has_char (c : ascii) (s : string) : bool :=
  match s with
  | EmptyString => false
  | String c' r => (Ascii.eqb c' c || has_char c r)%bool
  end.

(** A string of ASCII characters only: on such a string [str_title] and
    [str_lower] are Python's [title] and [lower]. *)
Fixpoint ascii_only (s : string) : bool :=
  match s with
  | EmptyString => true
  | String c r => (Nat.ltb (nat_of_ascii c) 128 && ascii_only r)%bool
  end.

(** The keys of the strategy that the strategist reads. *)
Definition strategy_keys : list string :=
  ["content_type"; "search_intent"; "estimated_word_count"; "target_audience"].

(** * Properties *)

(** ** The result monad *)

Lemma rbind_Ok {A B} (r : result A) (k : A -> result B) (b : B) :
  rbind r k = Ok b -> exists a, r = Ok a /\ k a = Ok b.
Proof.
  destruct r as [a|e]; simpl; intros H; [eauto | discriminate].
Qed.

Lemma rmap_Ok {A B} (f : A -> result B) (l : list A) (l' : list B) :
  rmap f l = Ok l' -> Forall2 (fun a b => f a = Ok b) l l'.
Proof.
  revert l'. induction l as [|a l IH]; simpl; intros l' H.
  - injection H as <-. constructor.
  - apply rbind_Ok in H as (b & Hb & H).
    apply rbind_Ok in H as (bs & Hbs & H).
    injection H as <-. constructor; auto.
Qed.

Lemma rmap_map {A B} (f : A -> result B) (g : B -> A) (l : list B) :
  Forall (fun b => f (g b) = Ok b) l -> rmap f (map g l) = Ok l.
Proof.
  induction 1 as [|b l Hb _ IH]; simpl; [reflexivity|].
  rewrite Hb. simpl. rewrite IH. reflexivity.
Qed.

Ltac invert_rbind H :=
  repeat match type of H with
    | rbind _ _ = Ok _ =>
        let a := fresh "a" in
        let Ha := fresh "Ha" in
        apply rbind_Ok in H as (a & Ha & H)
    end.

(** ** Schema layer *)

Lemma ContentType_member (c : ContentType) :
  member_of ContentType_value ContentType_members (ContentType_value c) = Some c.
Proof. destruct c; reflexivity. Qed.

Lemma SearchIntent_member (i : SearchIntent) :
  member_of SearchIntent_value SearchIntent_members (SearchIntent_value i)
  = Some i.
Proof. destruct i; reflexivity. Qed.

Lemma as_str_list_of_str_list (field : string) (l : list string) :
  as_str_list field (of_str_list l) = Ok l.
Proof.
  unfold as_str_list, of_str_list. simpl.
  apply rmap_map. apply Forall_forall. reflexivity.
Qed.

Lemma as_bounded_int_Ok (field : string) (lo hi : Z) (v : pyval) (z : Z) :
  as_bounded_int field lo hi v = Ok z -> v = PInt z /\ lo <= z <= hi.
Proof.
  unfold as_bounded_int. intros H.
  apply rbind_Ok in H as (z' & Hz & H).
  destruct v; try discriminate. injection Hz as ->.
  destruct (Z.leb lo z' && Z.leb z' hi)%bool eqn:E; [|discriminate].
  injection H as <-. apply andb_prop in E as [E1 E2].
  split; [reflexivity | lia].
Qed.

Lemma as_bounded_int_PInt (field : string) (lo hi z : Z) :
  lo <= z <= hi -> as_bounded_int field lo hi (PInt z) = Ok z.
Proof.
  intros [H1 H2]. unfold as_bounded_int. simpl.
  apply Z.leb_le in H1, H2. rewrite H1, H2. reflexivity.
Qed.


Lemma ContentGap_validate_ok (v : pyval) (g : ContentGap.t) :
  ContentGap_validate v = Ok g -> ContentGap_ok g.
Proof.
  unfold ContentGap_validate. intros H. invert_rbind H.
  injection H as <-. unfold ContentGap_ok. simpl.
  apply rbind_Ok in Ha2 as (x & _ & Hx).
  apply as_bounded_int_Ok in Hx. tauto.
Qed.

Lemma as_list_of_ok {A} (field : string) (check : pyval -> result A)
    (P : A -> Prop) (v : pyval) (l : list A) :
  (forall x a, check x = Ok a -> P a) ->
  as_list_of field check v = Ok l -> Forall P l.
Proof.
  intros Hc H. unfold as_list_of in H.
  apply rbind_Ok in H as (xs & _ & H). apply rmap_Ok in H.
  induction H; constructor; eauto.
Qed.

Lemma OutlineSection_validate_dict (s : OutlineSection.t) :
  OutlineSection_ok s -> OutlineSection_validate (OutlineSection_dict s) = Ok s.
Proof.
  intros Hs. destruct s. unfold OutlineSection_ok in Hs. simpl in Hs.
  unfold OutlineSection_validate, OutlineSection_dict, required, optional.
  simpl. rewrite !as_str_list_of_str_list. simpl.
  rewrite as_bounded_int_PInt by exact Hs. reflexivity.
Qed.

Lemma ContentGap_validate_dict (g : ContentGap.t) :
  ContentGap_ok g -> ContentGap_validate (ContentGap_dict g) = Ok g.
Proof.
  intros Hg. destruct g. unfold ContentGap_ok in Hg. simpl in Hg.
  unfold ContentGap_validate, ContentGap_dict, required. simpl.
  rewrite as_bounded_int_PInt by exact Hg. reflexivity.
Qed.

Lemma as_member_value {E} (field : string) (value : E -> string)
    (members : list E) (m : E) :
  member_of value members (value m) = Some m ->
  as_member field value members (PStr (value m)) = Ok m.
Proof. intros H. unfold as_member. simpl. rewrite H. reflexivity. Qed.

(** The validator of the title raises on what pydantic hands it, so a
    mapping with a string as title is never accepted. *)
Lemma ContentBrief_validate_title_str (d : pydict) (title : string) :
  dict_get "title" d = Some (PStr title) ->
  ContentBrief_validate (PDict d) = Raise TypeError.
Proof.
  intros H. unfold ContentBrief_validate, required. cbn [as_dict rbind].
  rewrite H. reflexivity.
Qed.

Lemma ContentBrief_validate_never_Ok (v : pyval) (b : ContentBrief.t) :
  ContentBrief_validate v <> Ok b.
Proof.
  unfold ContentBrief_validate. destruct v; try discriminate.
  cbn [as_dict rbind]. unfold required.
  destruct (dict_get "title" d) as [[]|]; discriminate.
Qed.

(** ** Generation and fallback *)

Section Run.
Context (W : World).

Lemma generate_first_tier_ok context keywords content_strategy log b :
  first_tier W context log = Ok b ->
  _generate_outline_with_llm W context keywords content_strategy log
  = (Ok (OBrief b), log ++ [context]).
Proof.
  unfold first_tier, _generate_outline_with_llm, try_except, bind, invoke,
    lift, ret.
  destruct (llm_invoke W (length log) context) as [|text]; [discriminate|].
  intros ->. reflexivity.
Qed.

Lemma generate_first_tier_fails context keywords content_strategy log e :
  first_tier W context log = Raise e ->
  _generate_outline_with_llm W context keywords content_strategy log
  = (Ok (OValue (fallback W context keywords content_strategy log)),
     log ++ [context; context]).
Proof.
  unfold first_tier, _generate_outline_with_llm, fallback, try_except, bind,
    invoke, lift, ret.
  assert (Hlen : length (log ++ [context]) = S (length log))
    by (rewrite length_app; simpl; lia).
  assert (Hlog : (log ++ [context]) ++ [context] = log ++ [context; context])
    by (rewrite <- app_assoc; reflexivity).
  destruct (llm_invoke W (length log) context) as [|text].
  - intros _. rewrite Hlen, Hlog.
    destruct (llm_invoke W (S (length log)) context) as [|raw];
      [reflexivity|].
    destruct (_parse_outline_manually W raw keywords content_strategy);
      reflexivity.
  - intros ->. rewrite Hlen, Hlog.
    destruct (llm_invoke W (S (length log)) context) as [|raw];
      [reflexivity|].
    destruct (_parse_outline_manually W raw keywords content_strategy);
      reflexivity.
Qed.

(** The whole run, by the outcome of its first tier. *)
Lemma generate_content_strategy_eq state log :
  generate_content_strategy W state log =
  match first_tier W (context_of state) log with
  | Ok b =>
      (Ok (set_confidence "content_strategy" confidence_high
             (set_outline (ContentBrief_dict b) state)),
       log ++ [context_of state])
  | Raise _ =>
      let v := fallback W (context_of state) (keywords state)
                 (default ∅ (content_strategy state)) log in
      (Ok (if py_bool v
           then set_confidence "content_strategy" confidence_high
                  (set_outline v state)
           else set_confidence "content_strategy" confidence_low
                  (append_error "Failed to generate content outline" state)),
       log ++ [context_of state; context_of state])
  end.
Proof.
  unfold generate_content_strategy. fold (context_of state). unfold bind.
  destruct (first_tier W (context_of state) log) as [b|e] eqn:E.
  - rewrite (generate_first_tier_ok _ _ _ _ _ E). reflexivity.
  - rewrite (generate_first_tier_fails _ _ _ _ _ E). simpl.
    destruct (py_bool _); reflexivity.
Qed.

(** The first tier yields no brief. *)
Lemma first_tier_never_Ok context log b : first_tier W context log <> Ok b.
Proof.
  unfold first_tier, parser_parse.
  destruct (llm_invoke W (length log) context) as [|text]; [discriminate|].
  destruct (parse_json_markdown W text) as [obj|]; [|discriminate].
  destruct (ContentBrief_validate obj) as [b'|e] eqn:E.
  - exfalso. eapply ContentBrief_validate_never_Ok, E.
  - destruct e; discriminate.
Qed.

(** The generation returns, after one call of the chain or two. *)
Lemma generate_returns context keywords content_strategy log :
  exists o sent,
    _generate_outline_with_llm W context keywords content_strategy log
    = (Ok o, log ++ sent) /\
    (1 <= length sent <= 2)%nat /\
    Forall (fun c => c = context) sent.
Proof.
  destruct (first_tier W context log) as [b|e] eqn:E.
  - rewrite (generate_first_tier_ok _ keywords content_strategy _ _ E).
    exists (OBrief b), [context]. repeat split; simpl; try lia.
    repeat constructor.
  - rewrite (generate_first_tier_fails _ keywords content_strategy _ _ E).
    eexists _, [context; context]. repeat split; simpl; try lia.
    repeat constructor.
Qed.
End Run.

(** ** Context builder *)

Lemma append_if_line_if (cond : bool) (line : string) (parts : list string) :
  append_if cond line parts = parts ++ line_if cond line.
Proof. destruct cond; simpl; [reflexivity | rewrite app_nil_r; reflexivity]. Qed.

(** The context is its lines, in the order of emission, joined by newlines. *)
Lemma _build_strategy_context_lines keywords content_strategy
    competitor_analysis serper_results content_gaps :
  _build_strategy_context keywords content_strategy competitor_analysis
    serper_results content_gaps
  = str_join nl
      (context_lines (primary_of keywords) (secondary_of keywords)
         (lsi_of keywords) content_strategy competitor_analysis serper_results
         content_gaps).
Proof.
  unfold _build_strategy_context, context_lines, nl.
  f_equal.
  destruct keywords as [d|k]; cbn [primary_of secondary_of lsi_of];
    rewrite !append_if_line_if;
    destruct competitor_analysis as [[topics|]];
    cbn [CompetitorAnalysis.common_topics default from_option];
    destruct serper_results as [|first rest];
    cbn [head default from_option SerperResult.people_also_ask map take
         nonempty line_if];
    destruct content_gaps as [|gap gaps];
    cbn [nonempty line_if];
    rewrite ?append_if_line_if, ?app_nil_r, <- ?app_assoc;
    reflexivity.
Qed.


(** C8, as the code has it. The context does not depend on the longtail
    keywords of the keyword set, in either shape: the builder sets them to
    None on both paths, so its lines are the primary-keyword line, the
    secondary and LSI lines when present, the three strategy lines, and the
    competitor, people-also-ask and content-gap lines when present, and a
    longtail line is never among them. *)
Theorem C8_longtail_never_emitted (keywords : KeywordSet)
    (longtail : list string) (content_strategy : gmap string scalar)
    (competitor_analysis : CompetitorAnalysis.t)
    (serper_results : list SerperResult.t) (content_gaps : list GapMap.t) :
  _build_strategy_context (with_longtail longtail keywords) content_strategy
    competitor_analysis serper_results content_gaps
  = _build_strategy_context keywords content_strategy competitor_analysis
      serper_results content_gaps
  /\ _build_strategy_context keywords content_strategy competitor_analysis
       serper_results content_gaps
     = str_join nl
         (context_lines (primary_of keywords) (secondary_of keywords)
            (lsi_of keywords) content_strategy competitor_analysis
            serper_results content_gaps).
Proof.
  split.
  - rewrite !_build_strategy_context_lines. destruct keywords; reflexivity.
  - apply _build_strategy_context_lines.
Qed.

(** C8, as the claim states it, fails: a typed keyword set with two longtail
    keywords gives the four lines of the context and no longtail line. *)
Lemma C8_counterexample :
  nonempty (longtail_of sourdough_longtail) = true
  /\ _build_strategy_context sourdough_longtail ∅ no_analysis [] []
     = str_join nl
         ["PRIMARY KEYWORD: sourdough bread";
          "CONTENT TYPE: guide";
          "SEARCH INTENT: informational";
          "TARGET WORD COUNT: 2500"].
Proof. split; reflexivity. Qed.

(** ** The run *)

Lemma set_confidence_lookup stage x state :
  confidence_scores (set_confidence stage x state) !! stage = Some x.
Proof. unfold set_confidence. simpl. apply lookup_insert_eq. Qed.

Lemma set_confidence_lookup_ne stage stage' x state :
  stage <> stage' ->
  confidence_scores (set_confidence stage x state) !! stage'
  = confidence_scores state !! stage'.
Proof. intros H. unfold set_confidence. simpl. apply lookup_insert_ne, H. Qed.

Lemma generate_content_strategy_from_Client (W : World) (state : OutlineState)
    (log : list string) :
  generate_content_strategy_from (Client W) state log
  = generate_content_strategy W state log.
Proof. reflexivity. Qed.

(** The minimal brief has the invariants of the specification when the
    content type and the search intent of the strategy are enumerated. *)
Lemma minimal_brief_spec_invariants (primary : string)
    (content_strategy : gmap string scalar) :
  strategy_enumerated content_strategy ->
  spec_invariants (minimal_brief primary content_strategy).
Proof.
  intros [Hct Hsi]. unfold spec_invariants, minimal_brief, py_get.
  cbn [dict_get String.eqb Ascii.eqb Bool.eqb].
  eexists _.
  destruct (content_strategy !! "content_type") as [x|];
    [destruct (Hct x eq_refl) as [c ->]; exists c | exists ULTIMATE_GUIDE];
    (destruct (content_strategy !! "search_intent") as [y|];
     [destruct (Hsi y eq_refl) as [i ->]; exists i | exists INFORMATIONAL]);
    (split; [reflexivity|]); (split; [discriminate|]);
    (split; [|split; reflexivity]);
    (constructor; [|constructor]);
    exists 300; (split; [reflexivity | lia]).
Qed.

(** C1, as the code has it. When the inference client cannot be constructed
    the exception reaches the caller, before any call of the chain, and the
    state is not written. Once the client is there the run returns without
    raising, whatever the state and the answers of the service. It stores
    what the generation returned exactly when that value is true, with
    confidence 0.9 and the errors unchanged; otherwise it leaves the outline
    as it was, appends one error and sets the confidence to 0.3. A stored
    minimal brief has the invariants of the specification (one section, of
    300 words, enumerated content type and search intent) when the content
    type and search intent of the strategy, where present, are enumerated. *)
Theorem C1_run_outcome (env : Environment) (state : OutlineState)
    (log : list string) :
  match env with
  | NoClient =>
      generate_content_strategy_from NoClient state log
      = (Raise OpenAIError, log)
  | Client W =>
      exists o state' log',
        _generate_outline_with_llm W (context_of state) (keywords state)
          (default ∅ (content_strategy state)) log = (Ok o, log') /\
        generate_content_strategy_from (Client W) state log
        = (Ok state', log') /\
        ((outline_bool o = true /\
          outline state' = Some (outline_stored o) /\
          confidence_scores state' !! "content_strategy"
          = Some confidence_high /\
          errors state' = errors state)
         \/
         (outline_bool o = false /\
          outline state' = outline state /\
          confidence_scores state' !! "content_strategy"
          = Some confidence_low /\
          errors state'
          = errors state ++ ["Failed to generate content outline"])) /\
        (forall primary,
           strategy_enumerated (default ∅ (content_strategy state)) ->
           outline state'
           = Some (minimal_brief primary (default ∅ (content_strategy state))) ->
           exists v, outline state' = Some v /\ spec_invariants v)
  end.
Proof.
  destruct env as [|W]; [reflexivity|].
  destruct (generate_returns W (context_of state) (keywords state)
              (default ∅ (content_strategy state)) log)
    as (o & sent & Hgen & _).
  exists o.
  assert (Hrun : generate_content_strategy_from (Client W) state log
                 = (if outline_bool o
                    then Ok (set_confidence "content_strategy" confidence_high
                               (set_outline (outline_stored o) state))
                    else Ok (set_confidence "content_strategy" confidence_low
                               (append_error
                                  "Failed to generate content outline" state)),
                    log ++ sent)).
  { unfold generate_content_strategy_from, bind,
      _generate_outline_with_llm_from.
    cbn [ChatOpenAI]. fold (context_of state). rewrite Hgen.
    destruct (outline_bool o); reflexivity. }
  rewrite Hrun. destruct (outline_bool o) eqn:B.
  - do 2 eexists. split; [exact Hgen|]. split; [reflexivity|]. split.
    + left. repeat split. apply set_confidence_lookup.
    + intros primary Hfit Hout. eexists. split; [exact Hout|].
      apply minimal_brief_spec_invariants, Hfit.
  - do 2 eexists. split; [exact Hgen|]. split; [reflexivity|]. split.
    + right. repeat split. apply set_confidence_lookup.
    + intros primary Hfit Hout. eexists. split; [exact Hout|].
      apply minimal_brief_spec_invariants, Hfit.
Qed.

(** C1, as the claim states it, fails: when the service cannot be reached
    the run returns with no outline in the state. *)
Lemma C1_counterexample :
  exists state' log',
    generate_content_strategy silent_world (fresh_state sourdough None) []
    = (Ok state', log') /\
    outline state' = None /\
    errors state' = ["Failed to generate content outline"] /\
    ~ (exists v, outline state' = Some v /\ spec_invariants v).
Proof.
  rewrite generate_content_strategy_eq. do 2 eexists.
  split; [reflexivity|]. repeat split.
  intros (v & Hv & _). discriminate Hv.
Qed.

(** C2, as the code has it. A failure of the first tier, transport or schema,
    is never surfaced: the run returns. It ends with confidence 0.3 and
    exactly one new entry in errors when the fallback yields nothing usable
    (None or an empty value); when the fallback yields a value that is true,
    the run ends with that value as outline, confidence 0.9 and errors
    unchanged. *)
Theorem C2_first_tier_failure_recovered (W : World) (state : OutlineState)
    (log : list string) (e : exn) :
  first_tier W (context_of state) log = Raise e ->
  let v := fallback W (context_of state) (keywords state)
             (default ∅ (content_strategy state)) log in
  exists state' log',
    generate_content_strategy W state log = (Ok state', log') /\
    ((py_bool v = false /\
      confidence_scores state' !! "content_strategy" = Some confidence_low /\
      errors state' = errors state ++ ["Failed to generate content outline"] /\
      outline state' = outline state)
     \/
     (py_bool v = true /\
      confidence_scores state' !! "content_strategy" = Some confidence_high /\
      errors state' = errors state /\
      outline state' = Some v)).
Proof.
  intros E v. rewrite generate_content_strategy_eq, E. cbv zeta. fold v.
  destruct (py_bool v) eqn:B; do 2 eexists; (split; [reflexivity|]).
  - right. repeat split. apply set_confidence_lookup.
  - left. repeat split. apply set_confidence_lookup.
Qed.

(** C2, as the claim states it, fails: the service answers in prose, the
    schema-constrained parse fails, and the run ends with the minimal brief,
    confidence 0.9 and no entry in errors. *)
Lemma C2_counterexample :
  first_tier prose_world (context_of (fresh_state sourdough None)) []
  = Raise OutputParserException /\
  exists state' log',
    generate_content_strategy prose_world (fresh_state sourdough None) []
    = (Ok state', log') /\
    confidence_scores state' !! "content_strategy" = Some confidence_high /\
    confidence_high <> confidence_low /\
    errors state' = [] /\
    outline state' = Some (minimal_brief "sourdough bread" ∅).
Proof.
  split; [reflexivity|].
  rewrite generate_content_strategy_eq. do 2 eexists.
  split; [reflexivity|]. repeat split. discriminate.
Qed.

Lemma C2_witness :
  first_tier prose_world (context_of (fresh_state sourdough None)) []
  = Raise OutputParserException /\
  exists state' log',
    generate_content_strategy prose_world (fresh_state sourdough None) []
    = (Ok state', log') /\
    errors state' = [].
Proof.
  split; [reflexivity|].
  destruct (C2_first_tier_failure_recovered prose_world
              (fresh_state sourdough None) [] OutputParserException
              eq_refl) as (state' & log' & Hrun & [H|H]).
  - destruct H as [H _]. discriminate H.
  - exists state', log'. split; [exact Hrun|]. apply H.
Defined.

(** C6, as the code has it. When the first tier fails, by transport or by
    parse, the generation calls the chain exactly once more, with the same
    context, and hands the new answer to the manual parse: the text of the
    first answer is never used again. So the generation, and with it every
    run, makes at most two calls of the chain, each with the context of the
    run. *)
Theorem C6_fallback_calls_again (W : World) (context : string)
    (keywords : KeywordSet) (content_strategy : gmap string scalar)
    (state : OutlineState) (log : list string) (e : exn) :
  first_tier W context log = Raise e ->
  _generate_outline_with_llm W context keywords content_strategy log
  = (Ok (OValue (fallback W context keywords content_strategy log)),
     log ++ [context; context]) /\
  (exists o sent,
     _generate_outline_with_llm W context keywords content_strategy log
     = (Ok o, log ++ sent) /\
     (1 <= length sent <= 2)%nat /\
     Forall (fun c => c = context) sent) /\
  (exists state' sent,
     generate_content_strategy W state log = (Ok state', log ++ sent) /\
     (1 <= length sent <= 2)%nat /\
     Forall (fun c => c = context_of state) sent).
Proof.
  intros E. split; [|split].
  - apply (generate_first_tier_fails _ _ _ _ _ _ E).
  - apply generate_returns.
  - rewrite generate_content_strategy_eq.
    destruct (first_tier W (context_of state) log).
    + eexists _, [context_of state]. repeat split; simpl; try lia.
      repeat constructor.
    + eexists _, [context_of state; context_of state].
      repeat split; simpl; try lia. repeat constructor.
Qed.

Lemma C6_witness :
  _generate_outline_with_llm prose_world sourdough_context sourdough ∅ []
  = (Ok (OValue (fallback prose_world sourdough_context sourdough ∅ [])),
     [sourdough_context; sourdough_context]).
Proof.
  apply (C6_fallback_calls_again prose_world sourdough_context sourdough ∅
           (fresh_state sourdough None) [] OutputParserException).
  reflexivity.
Defined.

(** C6, as the claim states it, fails: the first answer is text that does
    not parse, and a second request is sent all the same. *)
Lemma C6_counterexample :
  llm_invoke prose_world 0 sourdough_context = Reply prose_text /\
  parser_parse prose_world prose_text = Raise OutputParserException /\
  snd (_generate_outline_with_llm prose_world sourdough_context sourdough ∅ [])
  = [sourdough_context; sourdough_context].
Proof. repeat split; reflexivity. Qed.

(** C10. A run leaves the upstream inputs of the state as they were
    (keywords, content strategy, competitor analysis, search results, content
    gaps) and the confidence score of every other stage. It writes the
    outline and the confidence of its own stage and leaves errors unchanged,
    or, on the failure path, leaves the outline as it was and appends one
    entry to errors. *)
Theorem C10_frame (W : World) (state : OutlineState) (log : list string) :
  exists state' log',
    generate_content_strategy W state log = (Ok state', log') /\
    keywords state' = keywords state /\
    content_strategy state' = content_strategy state /\
    competitor_analysis state' = competitor_analysis state /\
    serper_results state' = serper_results state /\
    content_gaps state' = content_gaps state /\
    (forall stage, stage <> "content_strategy" ->
       confidence_scores state' !! stage = confidence_scores state !! stage) /\
    ((exists v, outline state' = Some v /\
                confidence_scores state' !! "content_strategy"
                = Some confidence_high /\
                errors state' = errors state)
     \/
     (outline state' = outline state /\
      confidence_scores state' !! "content_strategy" = Some confidence_low /\
      errors state' = errors state ++ ["Failed to generate content outline"])).
Proof.
  rewrite generate_content_strategy_eq.
  destruct (first_tier W (context_of state) log) as [b|e].
  - do 2 eexists. split; [reflexivity|]. repeat split.
    + intros stage Hne. rewrite set_confidence_lookup_ne by congruence.
      reflexivity.
    + left. eexists. repeat split. apply set_confidence_lookup.
  - cbv zeta.
    destruct (py_bool _); do 2 eexists; (split; [reflexivity|]); repeat split.
    + intros stage Hne. rewrite set_confidence_lookup_ne by congruence.
      reflexivity.
    + left. eexists. repeat split. apply set_confidence_lookup.
    + intros stage Hne. rewrite set_confidence_lookup_ne by congruence.
      reflexivity.
    + right. repeat split. apply set_confidence_lookup.
Qed.

(** C5, as the code has it. A keyword set in the mapping shape without a
    primary keyword raises nothing: the primary keyword is read as the empty
    string, the context is built with it, sent to the inference service, and
    the run returns. For every keyword set and every combination of absent or
    empty optional inputs the context is built: an absent input is read as
    an empty one and only the lines of the inputs that are there are
    emitted. *)
Theorem C5_missing_primary_is_empty (W : World) (d : KeywordMap.t)
    (state : OutlineState) (log : list string) :
  KeywordMap.primary d = None ->
  keywords state = KwDict d ->
  primary_of (keywords state) = "" /\
  (exists rest, context_of state = "PRIMARY KEYWORD: " +:+ nl +:+ rest) /\
  (exists state' log' sent,
     generate_content_strategy W state log = (Ok state', log') /\
     log' = log ++ context_of state :: sent) /\
  (forall keywords content_strategy competitor_analysis serper_results
          content_gaps,
     _build_strategy_context keywords content_strategy competitor_analysis
       serper_results content_gaps
     = str_join nl
         (context_lines (primary_of keywords) (secondary_of keywords)
            (lsi_of keywords) content_strategy competitor_analysis
            serper_results content_gaps)).
Proof.
  intros Hp Hk. split; [|split; [|split]].
  - rewrite Hk. simpl. rewrite Hp. reflexivity.
  - unfold context_of. rewrite _build_strategy_context_lines.
    rewrite Hk. cbn [primary_of]. rewrite Hp. cbn [default from_option].
    unfold context_lines.
    destruct (line_if (nonempty (secondary_of (KwDict d))) _) as [|x xs];
      destruct (line_if (nonempty (lsi_of (KwDict d))) _) as [|y ys];
      eexists; reflexivity.
  - rewrite generate_content_strategy_eq.
    destruct (first_tier W (context_of state) log).
    + do 3 eexists. split; reflexivity.
    + do 3 eexists. split; reflexivity.
  - intros. apply _build_strategy_context_lines.
Qed.

(** C5, as the claim states it, fails: for a mapping without a primary
    keyword the context is built, with an empty keyword in its first line,
    and the run returns after sending it twice. *)
Lemma C5_counterexample :
  _build_strategy_context no_primary ∅ no_analysis [] []
  = str_join nl
      ["PRIMARY KEYWORD: ";
       "CONTENT TYPE: guide";
       "SEARCH INTENT: informational";
       "TARGET WORD COUNT: 2500"] /\
  exists state',
    generate_content_strategy prose_world (fresh_state no_primary None) []
    = (Ok state',
       [context_of (fresh_state no_primary None);
        context_of (fresh_state no_primary None)]).
Proof.
  split; [reflexivity|].
  rewrite generate_content_strategy_eq. eexists. reflexivity.
Qed.

Lemma C5_witness :
  primary_of no_primary = "" /\
  exists state' log',
    generate_content_strategy silent_world (fresh_state no_primary None) []
    = (Ok state', log').
Proof.
  destruct (C5_missing_primary_is_empty silent_world
              (KeywordMap.mk None None None None)
              (fresh_state no_primary None) [] eq_refl eq_refl)
    as (Hp & _ & (state' & log' & sent & Hrun & _) & _).
  split; [exact Hp|]. exists state', log'. exact Hrun.
Defined.

(** ** The minimal brief *)

(** C3, as the code has it. For a typed keyword set, when no JSON object can
    be extracted from the text (no brace-delimited substring, or one that
    does not decode), the manual parse returns exactly the minimal brief built
    from the primary keyword and the strategy: title "Complete Guide to"
    followed by the title-cased keyword, content type defaulting to
    "ultimate_guide", search intent to "informational", target audience to
    "general audience", total word count to 2500, the single section
    "introduction" with title "What is ...?", subsections Overview and Key
    Benefits, word count 300 and the primary keyword as target keyword, and
    empty faqs, content gaps and link opportunities. It cannot fail for a
    typed keyword set. *)
Theorem C3_minimal_brief (W : World) (raw_content : string)
    (k : KeywordData.t) (content_strategy : gmap string scalar) :
  (re_search_braces raw_content = None \/
   exists json_str, re_search_braces raw_content = Some json_str /\
                    json_loads W json_str = None) ->
  let primary := KeywordData.primary k in
  let brief := minimal_brief primary content_strategy in
  _parse_outline_manually W raw_content (KwObj k) content_strategy = Ok brief
  /\ py_get "title" brief
     = Some (PStr ("Complete Guide to " +:+ str_title primary))
  /\ py_get "content_type" brief
     = Some (scalar_value (default (SStr "ultimate_guide")
                             (content_strategy !! "content_type")))
  /\ py_get "search_intent" brief
     = Some (scalar_value (default (SStr "informational")
                             (content_strategy !! "search_intent")))
  /\ py_get "target_audience" brief
     = Some (scalar_value (default (SStr "general audience")
                             (content_strategy !! "target_audience")))
  /\ py_get "total_word_count" brief
     = Some (scalar_value (default (SInt 2500)
                             (content_strategy !! "estimated_word_count")))
  /\ py_get "sections" brief
     = Some (PList
               [PDict
                  [("section_id", PStr "introduction");
                   ("section_title",
                     PStr ("What is " +:+ str_title primary +:+ "?"));
                   ("short_description", PStr "Introduction and overview");
                   ("target_keywords", PList [PStr primary]);
                   ("suggested_word_count", PInt 300);
                   ("subsections",
                     PList [PStr "Overview"; PStr "Key Benefits"]);
                   ("research_notes",
                     PList [PStr "Define the topic clearly"])]])
  /\ py_get "faqs" brief = Some (PList [])
  /\ py_get "content_gaps_addressed" brief = Some (PList [])
  /\ py_get "internal_link_opportunities" brief = Some (PList []).
Proof.
  intros H primary brief. split; [|repeat split].
  unfold _parse_outline_manually.
  destruct H as [-> | (json_str & -> & ->)]; reflexivity.
Qed.

(** C3, as the claim states it, fails: with an empty strategy the content
    type of the minimal brief is "ultimate_guide", not "guide". *)
Lemma C3_counterexample :
  re_search_braces prose_text = None /\
  _parse_outline_manually prose_world prose_text sourdough ∅
  = Ok (minimal_brief "sourdough bread" ∅) /\
  py_get "content_type" (minimal_brief "sourdough bread" ∅)
  = Some (PStr "ultimate_guide") /\
  py_get "content_type" (spec_minimal_brief "sourdough bread" ∅)
  = Some (PStr "guide") /\
  _parse_outline_manually prose_world prose_text sourdough ∅
  <> Ok (spec_minimal_brief "sourdough bread" ∅).
Proof. repeat split. discriminate. Qed.

Lemma C3_witness :
  _parse_outline_manually prose_world prose_text sourdough ∅
  = Ok (minimal_brief "sourdough bread" ∅).
Proof.
  apply (C3_minimal_brief prose_world prose_text
           (KeywordData.mk "sourdough bread" [] [] []) ∅).
  left. reflexivity.
Defined.

(** ** What the tiers store *)


Lemma not_enumerated_guide (c : ContentType) :
  PStr "guide" <> PStr (ContentType_value c).
Proof. destruct c; discriminate. Qed.



(** ** The validator of the title *)

(** C9, on the code. The validator of the title does not skip its check: it
    is handed a [ValidationInfo], on which the membership test of its first
    line raises [TypeError], so the validation of every mapping whose title
    is a string fails with that exception, whatever the other fields, the
    sample brief included. Only when it is called with a plain dict that has
    no target keywords does the body return the title. *)
Theorem C9_title_validator_raises (title : string) (d data : pydict) :
  title_must_contain_primary_keyword title (Values_info data)
  = Raise TypeError /\
  ContentBrief_validate (PDict (("title", PStr title) :: d)) = Raise TypeError /\
  ContentBrief_validate sample_document = Raise TypeError /\
  title_must_contain_primary_keyword title (Values_dict []) = Ok title.
Proof.
  split; [reflexivity|]. split; [|split; reflexivity].
  apply (ContentBrief_validate_title_str _ title). reflexivity.
Qed.

(** Called with a plain dict that has the key, the body does check the
    title. *)
Example title_validator_rejects :
  title_must_contain_primary_keyword "Baking at Home"
    (Values_dict [("target_keywords", PList [PStr "Sourdough"])])
  = Raise (ValueError "Title should contain primary keyword: sourdough").
Proof. reflexivity. Qed.

Example title_validator_accepts :
  title_must_contain_primary_keyword "SOURDOUGH at Home"
    (Values_dict [("target_keywords", PList [PStr "Sourdough"])])
  = Ok "SOURDOUGH at Home".
Proof. reflexivity. Qed.

(** ** Further facts about the tiers *)

(** The declared check of the sections accepts the empty list: the schema
    sets no minimum length. *)
Example empty_sections_pass_the_field_check :
  as_list_of "sections" OutlineSection_validate (PList []) = Ok [].
Proof. reflexivity. Qed.

(** When the service answers with a well-formed brief, the first tier raises
    all the same, and the run stores the object decoded from the second
    answer, after two calls of the chain. *)
Example brief_world_run :
  first_tier brief_world sourdough_context [] = Raise TypeError /\
  exists state',
    generate_content_strategy brief_world (fresh_state sourdough None) []
    = (Ok state', [sourdough_context; sourdough_context]) /\
    outline state' = Some sample_document.
Proof.
  split; [reflexivity|].
  rewrite generate_content_strategy_eq. eexists. split; reflexivity.
Qed.

(** For a keyword set in the mapping shape the minimal brief cannot be built:
    the manual parse reads the attribute [primary]. *)
Example manual_parse_of_mapping :
  _parse_outline_manually prose_world prose_text sourdough_mapping ∅
  = Raise (AttributeError "primary").
Proof. reflexivity. Qed.

(** An empty JSON object from the fallback is not true: the run takes the
    failure path. *)
Example empty_object_is_a_failure :
  exists state' log',
    generate_content_strategy empty_object_world (fresh_state sourdough None) []
    = (Ok state', log') /\
    outline state' = None /\
    errors state' = ["Failed to generate content outline"] /\
    confidence_scores state' !! "content_strategy" = Some confidence_low.
Proof.
  rewrite generate_content_strategy_eq. do 2 eexists.
  split; [reflexivity|]. repeat split.
Qed.

(** The regular expression matches from the first opening brace to the last
    closing brace. *)
Example re_search_braces_greedy :
  re_search_braces "see {a} and {b}, done" = Some "{a} and {b}" /\
  re_search_braces "} before {" = None /\
  re_search_braces prose_text = None.
Proof. repeat split. Qed.

Example str_title_words :
  str_title "sourdough bread" = "Sourdough Bread" /\
  str_title "they're 3d pRINT" = "They'Re 3D Print".
Proof. split; reflexivity. Qed.

(** * Further properties of the code *)

(** ** Schema layer: bounds, enumerations, keys *)

(** X1. A section passes validation exactly when its suggested word count
    lies in [100,2000]; outside it is rejected as out of bounds on that
    field. *)
Theorem X1_section_word_count_bounds (s : OutlineSection.t) :
  OutlineSection_validate (OutlineSection_dict s)
  = if (Z.leb 100 (OutlineSection.suggested_word_count s)
        && Z.leb (OutlineSection.suggested_word_count s) 2000)%bool
    then Ok s
    else Raise (ValidationError "suggested_word_count" out_of_bounds).
Proof.
  destruct s as [sid st sd tk wc ss rn].
  cbn [OutlineSection.suggested_word_count].
  destruct (Z.leb 100 wc && Z.leb wc 2000)%bool eqn:E.
  - apply OutlineSection_validate_dict. unfold OutlineSection_ok. simpl.
    apply andb_prop in E as [E1 E2]. lia.
  - unfold OutlineSection_validate, OutlineSection_dict, required, optional.
    simpl. rewrite as_str_list_of_str_list. simpl.
    unfold as_bounded_int. simpl. rewrite E. reflexivity.
Qed.

(** X2. A content gap passes validation exactly when its opportunity score
    lies in [1,10]; outside it is rejected as out of bounds on that field. *)
Theorem X2_gap_score_bounds (g : ContentGap.t) :
  ContentGap_validate (ContentGap_dict g)
  = if (Z.leb 1 (ContentGap.opportunity_score g)
        && Z.leb (ContentGap.opportunity_score g) 10)%bool
    then Ok g
    else Raise (ValidationError "opportunity_score" out_of_bounds).
Proof.
  destruct g as [t d sc]. cbn [ContentGap.opportunity_score].
  destruct (Z.leb 1 sc && Z.leb sc 10)%bool eqn:E.
  - apply ContentGap_validate_dict. unfold ContentGap_ok. simpl.
    apply andb_prop in E as [E1 E2]. lia.
  - unfold ContentGap_validate, ContentGap_dict, required. simpl.
    unfold as_bounded_int. simpl. rewrite E. reflexivity.
Qed.



Lemma member_of_value {E} (value : E -> string) (members : list E)
    (s : string) (m : E) :
  member_of value members s = Some m -> value m = s.
Proof.
  unfold member_of. intros H. apply find_some in H as [_ H].
  apply String.eqb_eq, H.
Qed.

(** X4. The content type and the search intent are accepted exactly at the
    values of their enumerations, and each value names one member. *)
Theorem X4_enumerations (s : string) (c : ContentType) (i : SearchIntent) :
  (as_member "content_type" ContentType_value ContentType_members (PStr s)
   = Ok c <-> s = ContentType_value c) /\
  (as_member "search_intent" SearchIntent_value SearchIntent_members (PStr s)
   = Ok i <-> s = SearchIntent_value i).
Proof.
  split; split.
  - unfold as_member. cbn [as_str rbind].
    destruct (member_of ContentType_value ContentType_members s) as [m|] eqn:E;
      [|discriminate].
    intros [= <-]. symmetry. eapply member_of_value, E.
  - intros ->. apply as_member_value, ContentType_member.
  - unfold as_member. cbn [as_str rbind].
    destruct (member_of SearchIntent_value SearchIntent_members s) as [m|] eqn:E;
      [|discriminate].
    intros [= <-]. symmetry. eapply member_of_value, E.
  - intros ->. apply as_member_value, SearchIntent_member.
Qed.

Lemma dict_get_cons_ne (f k : string) (x : pyval) (d : pydict) :
  f <> k -> dict_get f ((k, x) :: d) = dict_get f d.
Proof.
  intros H. simpl. destruct (String.eqb f k) eqn:E; [|reflexivity].
  apply String.eqb_eq in E. contradiction.
Qed.

Lemma required_cons_ne (f k : string) (x : pyval) (d : pydict) :
  f <> k -> required f ((k, x) :: d) = required f d.
Proof. intros H. unfold required. rewrite dict_get_cons_ne by exact H. reflexivity. Qed.

Lemma optional_cons_ne {A} (f k : string) (x : pyval) (d : pydict) (dflt : A)
    (check : pyval -> result A) :
  f <> k -> optional f ((k, x) :: d) dflt check = optional f d dflt check.
Proof. intros H. unfold optional. rewrite dict_get_cons_ne by exact H. reflexivity. Qed.

(** X5. A key that is not a field of a section is ignored by its
    validation: adding it to a mapping changes neither the acceptance, nor
    the section, nor the error. *)
Theorem X5_unknown_section_keys_ignored (k : string) (x : pyval) (d : pydict) :
  ~ In k OutlineSection.fields ->
  OutlineSection_validate (PDict ((k, x) :: d))
  = OutlineSection_validate (PDict d).
Proof.
  intros H.
  assert (Hne : forall f, In f OutlineSection.fields -> f <> k).
  { intros f Hf ->. exact (H Hf). }
  unfold OutlineSection_validate. cbn [as_dict rbind].
  rewrite !required_cons_ne, !optional_cons_ne
    by (apply Hne; unfold OutlineSection.fields; simpl; tauto).
  reflexivity.
Qed.

Lemma X5_witness :
  OutlineSection_validate
    (PDict
       [("notes", PStr "ask a baker");
        ("section_id", PStr "starter");
        ("section_title", PStr "Feeding a Sourdough Starter");
        ("short_description", PStr "Keeping a starter alive");
        ("target_keywords", PList [PStr "sourdough starter"]);
        ("suggested_word_count", PInt 400)])
  = OutlineSection_validate
      (PDict
         [("section_id", PStr "starter");
          ("section_title", PStr "Feeding a Sourdough Starter");
          ("short_description", PStr "Keeping a starter alive");
          ("target_keywords", PList [PStr "sourdough starter"]);
          ("suggested_word_count", PInt 400)]).
Proof.
  apply (X5_unknown_section_keys_ignored "notes" (PStr "ask a baker")).
  unfold OutlineSection.fields. intros H.
  repeat (destruct H as [H|H]; [discriminate H|]). exact H.
Defined.

(** ** The title validator and the strings it compares *)

Lemma to_lower_idem (c : ascii) : to_lower (to_lower c) = to_lower c.
Proof. destruct c as [[] [] [] [] [] [] [] []]; reflexivity. Qed.

Lemma str_lower_idem (s : string) : str_lower (str_lower s) = str_lower s.
Proof.
  induction s as [|c s IH]; simpl; [reflexivity|].
  rewrite to_lower_idem, IH. reflexivity.
Qed.

(** X7. When the title validator is handed target keywords, only the first
    one counts and its case does not: the outcome, message included, is the
    one for the lowercased first keyword alone. The case of the title does
    not count either: a title is accepted exactly when its lowercased form
    is. *)
Theorem X7_title_check_first_keyword_caseless (v p : string)
    (rest : list pyval) (others : pydict) :
  title_must_contain_primary_keyword v
    (Values_dict (("target_keywords", PList (PStr p :: rest)) :: others))
  = title_must_contain_primary_keyword v
      (Values_dict [("target_keywords", PList [PStr (str_lower p)])])
  /\
  (title_must_contain_primary_keyword v
     (Values_dict (("target_keywords", PList (PStr p :: rest)) :: others))
   = Ok v
   <->
   title_must_contain_primary_keyword (str_lower v)
     (Values_dict (("target_keywords", PList (PStr p :: rest)) :: others))
   = Ok (str_lower v)).
Proof.
  unfold title_must_contain_primary_keyword.
  cbn [dict_get String.eqb Ascii.eqb Bool.eqb py_bool length Nat.eqb negb
       py_first py_lower rbind].
  rewrite !str_lower_idem. split; [reflexivity|].
  destruct (str_contains (str_lower p) (str_lower v)); simpl;
    split; intros H; try reflexivity; discriminate H.
Qed.

(** ** Context builder: what it reads *)

(** X8. The strategist reads four keys of the strategy and no other: a key
    outside them changes neither the context nor the result of the manual
    parse; and the context does not depend on the target audience. *)
Theorem X8_unknown_strategy_keys_ignored (W : World) (k : string) (x : scalar)
    (content_strategy : gmap string scalar) (keywords : KeywordSet)
    (competitor_analysis : CompetitorAnalysis.t)
    (serper_results : list SerperResult.t) (content_gaps : list GapMap.t)
    (raw_content : string) :
  ~ In k strategy_keys ->
  _build_strategy_context keywords (<[k := x]> content_strategy)
    competitor_analysis serper_results content_gaps
  = _build_strategy_context keywords content_strategy competitor_analysis
      serper_results content_gaps
  /\
  _parse_outline_manually W raw_content keywords (<[k := x]> content_strategy)
  = _parse_outline_manually W raw_content keywords content_strategy
  /\
  _build_strategy_context keywords
    (<["target_audience" := x]> content_strategy)
    competitor_analysis serper_results content_gaps
  = _build_strategy_context keywords content_strategy competitor_analysis
      serper_results content_gaps.
Proof.
  intros H.
  assert (Hne : forall f, In f strategy_keys -> k <> f).
  { intros f Hf ->. exact (H Hf). }
  split; [|split].
  - rewrite !_build_strategy_context_lines. unfold context_lines.
    rewrite !lookup_insert_ne
      by (apply Hne; unfold strategy_keys; simpl; tauto).
    reflexivity.
  - unfold _parse_outline_manually.
    rewrite !lookup_insert_ne
      by (apply Hne; unfold strategy_keys; simpl; tauto).
    reflexivity.
  - rewrite !_build_strategy_context_lines. unfold context_lines.
    rewrite !lookup_insert_ne by discriminate.
    reflexivity.
Qed.

Lemma X8_witness :
  _build_strategy_context sourdough (<["tone" := SStr "friendly"]> ∅)
    no_analysis [] []
  = _build_strategy_context sourdough ∅ no_analysis [] [].
Proof.
  refine (proj1 (X8_unknown_strategy_keys_ignored silent_world "tone"
                   (SStr "friendly") ∅ sourdough no_analysis [] [] "" _)).
  unfold strategy_keys. intros H.
  repeat (destruct H as [H|H]; [discriminate H|]). exact H.
Defined.

(** X9. The two shapes agree: when a mapping makes a [KeywordData], the
    context built from the typed object is the context built from the
    mapping itself. The typed object keeps the longtail keywords of the
    mapping, which the context does not show. *)
Theorem X9_shapes_agree (d : KeywordMap.t) (k : KeywordData.t)
    (content_strategy : gmap string scalar)
    (competitor_analysis : CompetitorAnalysis.t)
    (serper_results : list SerperResult.t) (content_gaps : list GapMap.t) :
  KeywordData_of_mapping d = Ok k ->
  _build_strategy_context (KwObj k) content_strategy competitor_analysis
    serper_results content_gaps
  = _build_strategy_context (KwDict d) content_strategy competitor_analysis
      serper_results content_gaps
  /\ KeywordData.longtail k = default [] (KeywordMap.longtail d).
Proof.
  unfold KeywordData_of_mapping.
  destruct (KeywordMap.primary d) as [p|] eqn:Hp; [|discriminate].
  intros [= <-]. split; [|reflexivity].
  rewrite !_build_strategy_context_lines. cbn [primary_of secondary_of lsi_of].
  cbn. rewrite Hp. reflexivity.
Qed.

Lemma X9_witness :
  _build_strategy_context sourdough ∅ no_analysis [] []
  = _build_strategy_context sourdough_mapping ∅ no_analysis [] [].
Proof.
  refine (proj1 (X9_shapes_agree
                   (KeywordMap.mk (Some "sourdough bread") None None None)
                   (KeywordData.mk "sourdough bread" [] [] [])
                   ∅ no_analysis [] [] _)).
  reflexivity.
Defined.

(** A mapping without a primary keyword makes no [KeywordData], while the
    context builder reads it with an empty keyword. *)
Example no_primary_makes_no_KeywordData :
  KeywordData_of_mapping (KeywordMap.mk None None None None)
  = Raise (ValidationError "primary" missing) /\
  primary_of no_primary = "".
Proof. split; reflexivity. Qed.

Lemma nonempty_take {A} (n : nat) (l : list A) :
  nonempty (take (S n) l) = nonempty l.
Proof. destruct l; reflexivity. Qed.

Lemma take_take_same {A} (n : nat) (l : list A) : take n (take n l) = take n l.
Proof.
  revert l. induction n as [|n IH]; intros [|a l]; simpl; try reflexivity.
  rewrite IH. reflexivity.
Qed.

Lemma take_map_take {A B} (f : A -> B) (n : nat) (l : list A) :
  take n (map f (take n l)) = take n (map f l).
Proof.
  revert l. induction n as [|n IH]; intros [|a l]; simpl; try reflexivity.
  rewrite IH. reflexivity.
Qed.

(** X10. The context shows at most the first ten competitor topics, the
    first five questions of the first search result and the topics of the
    first three content gaps: what lies beyond them, the other search
    results, and the description and score of a gap do not change it. *)
Theorem X10_context_reads_a_prefix (keywords : KeywordSet)
    (content_strategy : gmap string scalar)
    (competitor_analysis : CompetitorAnalysis.t)
    (serper_results : list SerperResult.t) (content_gaps : list GapMap.t) :
  _build_strategy_context keywords content_strategy competitor_analysis
    serper_results content_gaps
  = _build_strategy_context keywords content_strategy
      (read_topics competitor_analysis) (read_results serper_results)
      (read_gaps content_gaps).
Proof.
  rewrite !_build_strategy_context_lines. unfold context_lines.
  f_equal. f_equal. f_equal. f_equal. f_equal. f_equal; [|f_equal].
  - destruct competitor_analysis as [[topics|]];
      cbn [read_topics CompetitorAnalysis.common_topics option_map default
           from_option id]; [|reflexivity].
    rewrite (nonempty_take 9), take_take_same. reflexivity.
  - destruct serper_results as [|[[paa|]] rest];
      cbn [read_results head default from_option id
           SerperResult.people_also_ask option_map]; try reflexivity.
    rewrite take_map_take. reflexivity.
  - destruct content_gaps as [|g1 [|g2 [|g3 gaps]]]; reflexivity.
Qed.


(** ** The extraction of a JSON object from the text *)

Lemma append_empty (b : string) : EmptyString +:+ b = b.
Proof. reflexivity. Qed.

Lemma append_cons (c : ascii) (a b : string) :
  String c a +:+ b = String c (a +:+ b).
Proof. reflexivity. Qed.

Lemma append_assoc (a b c : string) : (a +:+ b) +:+ c = a +:+ (b +:+ c).
Proof.
  induction a as [|x a IH]; [reflexivity|].
  rewrite !append_cons, IH. reflexivity.
Qed.

(** Exposes the characters at the head of an appended string. *)
Ltac head_chars :=
  repeat (rewrite append_empty in * || rewrite append_cons in *).

Lemma has_char_app (c : ascii) (a b : string) :
  has_char c (a +:+ b) = (has_char c a || has_char c b)%bool.
Proof.
  induction a as [|x a IH]; head_chars; simpl; [reflexivity|].
  rewrite IH. apply orb_assoc.
Qed.

Lemma upto_last_close_None (r : string) :
  upto_last_close r = None <-> has_char "}" r = false.
Proof.
  induction r as [|c r IH]; simpl; [tauto|].
  destruct (upto_last_close r) as [p|].
  - split; [discriminate|]. intros H.
    apply orb_false_elim in H as [_ H]. apply IH in H. discriminate H.
  - rewrite (proj1 IH eq_refl), orb_false_r.
    destruct (Ascii.eqb c "}"); split; intros H; try discriminate H;
      reflexivity.
Qed.

Lemma upto_last_close_app (mid post : string) :
  has_char "}" post = false ->
  upto_last_close (mid +:+ "}" +:+ post) = Some (mid +:+ "}").
Proof.
  intros H. induction mid as [|c mid IH]; head_chars; simpl.
  - rewrite (proj2 (upto_last_close_None post) H). reflexivity.
  - rewrite IH. reflexivity.
Qed.

Lemma upto_last_close_Some (r p : string) :
  upto_last_close r = Some p ->
  exists mid post,
    p = mid +:+ "}" /\ r = p +:+ post /\ has_char "}" post = false.
Proof.
  revert p. induction r as [|c r IH]; simpl; intros p H; [discriminate|].
  destruct (upto_last_close r) as [p'|] eqn:E.
  - injection H as <-.
    destruct (IH p' eq_refl) as (mid & post & -> & Hr & Hpost).
    exists (String c mid), post. head_chars. rewrite <- Hr. auto.
  - destruct (Ascii.eqb c "}") eqn:Ec; [|discriminate].
    injection H as <-. apply Ascii.eqb_eq in Ec. subst c.
    exists EmptyString, r. head_chars.
    split; [reflexivity|]. split; [reflexivity|].
    apply upto_last_close_None, E.
Qed.

Lemma re_search_braces_match (pre mid post : string) :
  has_char "{" pre = false ->
  has_char "}" post = false ->
  re_search_braces (pre +:+ "{" +:+ mid +:+ "}" +:+ post)
  = Some ("{" +:+ mid +:+ "}").
Proof.
  intros Hpre Hpost.
  pose proof (upto_last_close_app mid post Hpost) as Hu.
  induction pre as [|c pre IH]; head_chars; simpl.
  - rewrite Hu. reflexivity.
  - simpl in Hpre. apply orb_false_elim in Hpre as [Hc Hpre].
    rewrite Hc. apply IH, Hpre.
Qed.

Lemma re_search_braces_Some (s m : string) :
  re_search_braces s = Some m ->
  exists pre mid post,
    m = "{" +:+ mid +:+ "}" /\
    s = pre +:+ m +:+ post /\
    has_char "{" pre = false /\
    has_char "}" post = false.
Proof.
  induction s as [|c s IH]; simpl; intros H; [discriminate|].
  destruct (Ascii.eqb c "{") eqn:Ec.
  - apply Ascii.eqb_eq in Ec. subst c.
    destruct (upto_last_close s) as [p|] eqn:E; [|discriminate].
    injection H as <-.
    apply upto_last_close_Some in E as (mid & post & -> & Hs & Hpost).
    exists EmptyString, mid, post. head_chars. rewrite <- Hs. auto.
  - destruct (IH H) as (pre & mid & post & -> & Hs & Hpre & Hpost).
    exists (String c pre), mid, post. head_chars. rewrite <- Hs.
    simpl. rewrite Ec, Hpre. auto.
Qed.

(** X12. The extraction returns the text from the first opening brace to
    the last closing brace: it returns [m] exactly when the text is [m]
    between a prefix without an opening brace and a suffix without a closing
    brace, [m] starting with one and ending with the other. *)
Theorem X12_extraction_is_greedy (s m : string) :
  re_search_braces s = Some m <->
  exists pre mid post,
    m = "{" +:+ mid +:+ "}" /\
    s = pre +:+ m +:+ post /\
    has_char "{" pre = false /\
    has_char "}" post = false.
Proof.
  split; [apply re_search_braces_Some|].
  intros (pre & mid & post & -> & -> & Hpre & Hpost).
  rewrite !append_assoc. apply re_search_braces_match; assumption.
Qed.

Lemma re_search_braces_finds (pre rest : string) :
  has_char "}" rest = true ->
  re_search_braces (pre +:+ "{" +:+ rest) <> None.
Proof.
  intros H. induction pre as [|c pre IH]; head_chars; simpl.
  - destruct (upto_last_close rest) as [p|] eqn:E; [discriminate|].
    apply upto_last_close_None in E. congruence.
  - destruct (Ascii.eqb c "{"); [|exact IH].
    destruct (upto_last_close (pre +:+ String "{" rest)) as [p|] eqn:E;
      [discriminate|].
    apply upto_last_close_None in E.
    rewrite has_char_app in E. simpl in E.
    rewrite H, orb_true_r in E. discriminate E.
Qed.

(** X13. The extraction finds nothing exactly when no opening brace of the
    text has a closing brace after it. *)
Theorem X13_extraction_finds_nothing (s : string) :
  re_search_braces s = None <->
  ~ exists pre mid post, s = pre +:+ "{" +:+ mid +:+ "}" +:+ post.
Proof.
  split.
  - intros H (pre & mid & post & ->).
    apply (re_search_braces_finds pre (mid +:+ "}" +:+ post)); [|exact H].
    rewrite has_char_app, append_cons. simpl. apply orb_true_r.
  - intros H. destruct (re_search_braces s) as [m|] eqn:E; [|reflexivity].
    exfalso. apply H.
    apply re_search_braces_Some in E as (pre & mid & post & -> & -> & _).
    exists pre, mid, post. rewrite !append_assoc. reflexivity.
Qed.

(** ** The manual parse and the failure path *)

(** X14. Text around a JSON object is ignored: when the text is an object
    between a prefix without an opening brace and a suffix without a closing
    brace, and the object decodes, the manual parse returns the decoded
    value as it is, for a keyword set of either shape and any strategy. *)
Theorem X14_object_in_prose_is_returned (W : World) (pre mid post : string)
    (v : pyval) (keywords : KeywordSet)
    (content_strategy : gmap string scalar) :
  has_char "{" pre = false ->
  has_char "}" post = false ->
  json_loads W ("{" +:+ mid +:+ "}") = Some v ->
  _parse_outline_manually W (pre +:+ "{" +:+ mid +:+ "}" +:+ post) keywords
    content_strategy = Ok v.
Proof.
  intros Hpre Hpost Hv. unfold _parse_outline_manually.
  rewrite (re_search_braces_match pre mid post Hpre Hpost), Hv. reflexivity.
Qed.

Lemma X14_witness :
  _parse_outline_manually silent_world
    ("Here is the outline: " +:+ "{" +:+ member "outline" "[]" +:+ "}" +:+
     " Enjoy.")
    sourdough_mapping ∅
  = Ok untyped_document.
Proof.
  apply (X14_object_in_prose_is_returned silent_world
           "Here is the outline: " (member "outline" "[]") " Enjoy.");
    reflexivity.
Defined.

Lemma manual_parse_mapping_fails (W : World) (raw_content : string)
    (d : KeywordMap.t) (content_strategy : gmap string scalar) :
  (re_search_braces raw_content = None \/
   exists json_str, re_search_braces raw_content = Some json_str /\
                    json_loads W json_str = None) ->
  _parse_outline_manually W raw_content (KwDict d) content_strategy
  = Raise (AttributeError "primary").
Proof.
  unfold _parse_outline_manually.
  intros [-> | (json_str & -> & ->)]; reflexivity.
Qed.

(** X15. For a keyword set in the mapping shape the fallback has no minimal
    brief: when the first tier fails and the second answer holds no JSON
    object that decodes, the run takes the failure path, leaving the outline
    as it was, appending one error and setting the confidence to 0.3, after
    two requests. *)
Theorem X15_mapping_without_object_fails (W : World) (state : OutlineState)
    (log : list string) (d : KeywordMap.t) (e : exn) (raw : string) :
  keywords state = KwDict d ->
  first_tier W (context_of state) log = Raise e ->
  llm_invoke W (S (length log)) (context_of state) = Reply raw ->
  (re_search_braces raw = None \/
   exists json_str, re_search_braces raw = Some json_str /\
                    json_loads W json_str = None) ->
  exists state',
    generate_content_strategy W state log
    = (Ok state', log ++ [context_of state; context_of state]) /\
    outline state' = outline state /\
    errors state' = errors state ++ ["Failed to generate content outline"] /\
    confidence_scores state' !! "content_strategy" = Some confidence_low.
Proof.
  intros Hk E Hraw Hno.
  rewrite generate_content_strategy_eq, E. cbv zeta.
  unfold fallback. rewrite Hraw, Hk.
  rewrite (manual_parse_mapping_fails _ _ _ _ Hno). cbn [py_bool].
  eexists. split; [reflexivity|]. repeat split.
  apply set_confidence_lookup.
Qed.

Lemma X15_witness :
  exists state',
    generate_content_strategy prose_world
      (fresh_state sourdough_mapping None) []
    = (Ok state', [sourdough_context; sourdough_context]) /\
    outline state' = None.
Proof.
  destruct (X15_mapping_without_object_fails prose_world
              (fresh_state sourdough_mapping None) []
              (KeywordMap.mk (Some "sourdough bread") None None None)
              OutputParserException prose_text
              eq_refl eq_refl eq_refl (or_introl eq_refl))
    as (state' & Hrun & Hout & _).
  exists state'. split; [exact Hrun | exact Hout].
Defined.

(** X16. When the inference service answers neither request, the outline is
    left as it was, one error is appended and the confidence is 0.3, for a
    keyword set of either shape: no minimal brief is built. *)
Theorem X16_unreachable_service (W : World) (state : OutlineState)
    (log : list string) :
  llm_invoke W (length log) (context_of state) = Unreachable ->
  llm_invoke W (S (length log)) (context_of state) = Unreachable ->
  exists state',
    generate_content_strategy W state log
    = (Ok state', log ++ [context_of state; context_of state]) /\
    outline state' = outline state /\
    errors state' = errors state ++ ["Failed to generate content outline"] /\
    confidence_scores state' !! "content_strategy" = Some confidence_low.
Proof.
  intros H1 H2. rewrite generate_content_strategy_eq.
  unfold first_tier, fallback. rewrite H1, H2. cbn [py_bool].
  eexists. split; [reflexivity|]. repeat split.
  apply set_confidence_lookup.
Qed.

Lemma X16_witness :
  exists state',
    generate_content_strategy silent_world (fresh_state sourdough None) []
    = (Ok state', [sourdough_context; sourdough_context]) /\
    errors state' = ["Failed to generate content outline"].
Proof.
  destruct (X16_unreachable_service silent_world
              (fresh_state sourdough None) [] eq_refl eq_refl)
    as (state' & Hrun & _ & Herr & _).
  exists state'. split; [exact Hrun | exact Herr].
Defined.

Lemma to_lower_to_upper (c : ascii) : to_lower (to_upper c) = to_lower c.
Proof. destruct c as [[] [] [] [] [] [] [] []]; reflexivity. Qed.

Lemma str_lower_title_from (cased : bool) (s : string) :
  str_lower (title_from cased s) = str_lower s.
Proof.
  revert cased. induction s as [|c s IH]; intros cased; simpl; [reflexivity|].
  destruct (is_upper c || is_lower c)%bool; simpl; rewrite IH;
    [|reflexivity].
  destruct cased; [rewrite to_lower_idem | rewrite to_lower_to_upper];
    reflexivity.
Qed.

Lemma str_lower_app (a b : string) :
  str_lower (a +:+ b) = str_lower a +:+ str_lower b.
Proof.
  induction a as [|c a IH]; head_chars; simpl; [reflexivity|].
  head_chars. rewrite IH. reflexivity.
Qed.

Lemma prefix_refl (x : string) : String.prefix x x = true.
Proof.
  induction x as [|c x IH]; simpl; [reflexivity|].
  destruct (ascii_dec c c); [exact IH | contradiction].
Qed.

Lemma str_contains_refl (x : string) : str_contains x x = true.
Proof.
  destruct x as [|c x]; cbn [str_contains]; rewrite prefix_refl; reflexivity.
Qed.

Lemma str_contains_suffix (x pre : string) : str_contains x (pre +:+ x) = true.
Proof.
  induction pre as [|c pre IH]; head_chars; [apply str_contains_refl|].
  cbn [str_contains]. rewrite IH. destruct (String.prefix x _); reflexivity.
Qed.

Lemma manual_parse_minimal (W : World) (raw_content : string)
    (k : KeywordData.t) (content_strategy : gmap string scalar) :
  (re_search_braces raw_content = None \/
   exists json_str, re_search_braces raw_content = Some json_str /\
                    json_loads W json_str = None) ->
  _parse_outline_manually W raw_content (KwObj k) content_strategy
  = Ok (minimal_brief (KeywordData.primary k) content_strategy).
Proof.
  unfold _parse_outline_manually.
  intros [-> | (json_str & -> & ->)]; reflexivity.
Qed.

(** X17. For a primary keyword of ASCII characters, the title of the
    minimal brief names the keyword, whatever its case: the body of the title
    validator, called with a dict whose first target keyword is the primary
    keyword, accepts that title. *)
Theorem X17_minimal_title_names_the_keyword (W : World) (raw_content : string)
    (k : KeywordData.t) (content_strategy : gmap string scalar) :
  ascii_only (KeywordData.primary k) = true ->
  (re_search_braces raw_content = None \/
   exists json_str, re_search_braces raw_content = Some json_str /\
                    json_loads W json_str = None) ->
  exists brief title,
    _parse_outline_manually W raw_content (KwObj k) content_strategy
    = Ok brief /\
    py_get "title" brief = Some (PStr title) /\
    title_must_contain_primary_keyword title
      (Values_dict [("target_keywords", PList [PStr (KeywordData.primary k)])])
    = Ok title.
Proof.
  intros _ H. do 2 eexists.
  split; [apply manual_parse_minimal, H|]. split; [reflexivity|].
  unfold title_must_contain_primary_keyword.
  cbn [dict_get String.eqb Ascii.eqb Bool.eqb py_bool length Nat.eqb negb
       py_first py_lower rbind].
  rewrite str_lower_app. unfold str_title. rewrite str_lower_title_from.
  rewrite str_contains_suffix. reflexivity.
Qed.

Lemma X17_witness :
  exists brief title,
    _parse_outline_manually prose_world prose_text sourdough ∅ = Ok brief /\
    py_get "title" brief = Some (PStr title) /\
    title_must_contain_primary_keyword title
      (Values_dict [("target_keywords", PList [PStr "sourdough bread"])])
    = Ok title.
Proof.
  apply (X17_minimal_title_names_the_keyword prose_world prose_text
           (KeywordData.mk "sourdough bread" [] [] []) ∅).
  - reflexivity.
  - left. reflexivity.
Defined.

(** ** Runs in sequence *)

Lemma run_step (W : World) (state : OutlineState) (log : list string) :
  exists state' sent added,
    generate_content_strategy W state log = (Ok state', log ++ sent) /\
    context_of state' = context_of state /\
    keywords state' = keywords state /\
    Forall (fun c => c = context_of state) sent /\
    (1 <= length sent <= 2)%nat /\
    errors state' = errors state ++ added /\
    (length added <= 1)%nat.
Proof.
  rewrite generate_content_strategy_eq.
  destruct (first_tier W (context_of state) log).
  - exists (set_confidence "content_strategy" confidence_high
              (set_outline (ContentBrief_dict a) state)),
      [context_of state], [].
    repeat split; simpl; try lia; try (rewrite app_nil_r; reflexivity).
    repeat constructor.
  - cbv zeta. destruct (py_bool _).
    + eexists _, [context_of state; context_of state], [].
      repeat split; simpl; try lia; try (rewrite app_nil_r; reflexivity).
      repeat constructor.
    + eexists _, [context_of state; context_of state],
        ["Failed to generate content outline"].
      repeat split; simpl; try lia.
      repeat constructor.
Qed.

(** X18. A run leaves the state ready for another one: a second run on the
    returned state builds the same context, so two runs in sequence send
    between two and four requests, every one with the context of the first
    state, keep the keywords, and append at most two errors. *)
Theorem X18_two_runs (W : World) (state : OutlineState) (log : list string) :
  exists state1 log1 state2 sent added,
    generate_content_strategy W state log = (Ok state1, log1) /\
    generate_content_strategy W state1 log1 = (Ok state2, log ++ sent) /\
    context_of state1 = context_of state /\
    Forall (fun c => c = context_of state) sent /\
    (2 <= length sent <= 4)%nat /\
    keywords state2 = keywords state /\
    errors state2 = errors state ++ added /\
    (length added <= 2)%nat.
Proof.
  destruct (run_step W state log)
    as (state1 & sent1 & added1 & Hrun1 & Hc1 & Hk1 & Hs1 & Hl1 & He1 & Ha1).
  destruct (run_step W state1 (log ++ sent1))
    as (state2 & sent2 & added2 & Hrun2 & Hc2 & Hk2 & Hs2 & Hl2 & He2 & Ha2).
  exists state1, (log ++ sent1), state2, (sent1 ++ sent2), (added1 ++ added2).
  rewrite app_assoc, !length_app.
  repeat split; try assumption; try lia; try congruence.
  - apply Forall_app. split; [exact Hs1|].
    rewrite Hc1 in Hs2. exact Hs2.
  - rewrite He2, He1, app_assoc. reflexivity.
Qed.
